(** * marxan-server: session and job orchestration

    A shallow embedding of the orchestration core of [marxan-server.py]:
    the run log ([runlog.dat]) and the functions that read and rewrite it,
    the WebSocket handler base class ([MarxanWebSocketHandler]), the Marxan
    job handler ([runMarxan]), the [stopProcess] REST handler and the
    PostGIS query wrapper ([PostGIS.execute], [QueryWebSocketHandler]),
    together with the helpers these use: the deletion of output files,
    the [clearRunLogs] handler, the streaming of the output of Marxan,
    and the checks made on a request (required arguments, authentication
    and authorisation).

    Python statements become computations in a small state-and-exception
    monad over one record, [Server], that holds the files, the process
    table, the connection pool, the attributes of the handler instance
    [self] and a chronological trace of the externally visible actions.

    The server runs its handlers on one event loop: between two [await]s
    that suspend, a handler runs alone.  What the outside world answers
    at these points (the database, the operating system, the peer) is
    given to the model as an environment record, over which the
    properties quantify. *)

From Stdlib Require Import ZArith String Ascii List Lia DecimalString DecimalZ.
From stdpp Require Import base list gmap strings.

Open Scope string_scope.
Open Scope list_scope.
Open Scope Z_scope.

(** ** Python values *)

(** [str(n)] for an [int]. *)
Definition py_str (z : Z) : string := NilZero.string_of_int (Z.to_int z).

(** [str(x)] where [x] is an [int] or [None]. *)
Definition py_str_opt (o : option Z) : string :=
  match o with
  | Some z => py_str z
  | None => "None"
  end.

(** [s.find(sub)]: the first position of [sub], or [-1]. *)
Definition py_find (sub s : string) : Z :=
  match String.index 0 sub s with
  | Some i => Z.of_nat i
  | None => -1
  end.

(** The position a slice bound [k] denotes in a string of length [n]. *)
Definition py_bound (k : Z) (n : nat) : nat :=
  if k <? 0 then Z.to_nat (Z.max (k + Z.of_nat n) 0)
  else Nat.min (Z.to_nat k) n.

(** [s[k:]] *)
Definition py_slice_from (k : Z) (s : string) : string :=
  let n := String.length s in
  let a := py_bound k n in
  String.substring a (n - a) s.

(** [s[:k]] *)
Definition py_slice_to (k : Z) (s : string) : string :=
  String.substring 0 (py_bound k (String.length s)) s.

(** The last position at which [sub] occurs in [s]. *)
Fixpoint rindex (sub s : string) : option nat :=
  match s with
  | EmptyString => if String.prefix sub s then Some 0%nat else None
  | String _ s' =>
      match rindex sub s' with
      | Some i => Some (S i)
      | None => if String.prefix sub s then Some 0%nat else None
      end
  end.

(** [s.rfind(sub)]: the last position of [sub], or [-1]. *)
Definition py_rfind (sub s : string) : Z :=
  match rindex sub s with
  | Some i => Z.of_nat i
  | None => -1
  end.

(** A message is a [dict] with string keys; [d.update({k: v})] is
    [<[k:=v]> d]. *)
Abbreviation Message := (gmap string string).

(** ** The run log *)

Inductive Status := Running | Completed | Stopped | Killed.

Definition Status_eqb (a b : Status) : bool :=
  match a, b with
  | Running, Running | Completed, Completed
  | Stopped, Stopped | Killed, Killed => true
  | _, _ => false
  end.

#[global] Instance Status_eq_dec : EqDecision Status.
Proof. solve_decision. Defined.

Definition status_text (s : Status) : string :=
  match s with
  | Running => "Running"
  | Completed => "Completed"
  | Stopped => "Stopped"
  | Killed => "Killed"
  end.

(** One line of [runlog.dat]: the eight tab separated columns written by
    [logRun]. *)
Record Row := mkRow {
  pid : Z;
  user : string;
  project : string;
  starttime : string;
  endtime : string;
  runtime : string;
  runs : string;
  status : Status
}.

Definition set_runs (v : string) (r : Row) : Row :=
  mkRow (pid r) (user r) (project r) (starttime r) (endtime r) (runtime r)
        v (status r).

Definition set_status (v : Status) (r : Row) : Row :=
  mkRow (pid r) (user r) (project r) (starttime r) (endtime r) (runtime r)
        (runs r) v.

Definition set_times (e t : string) (r : Row) : Row :=
  mkRow (pid r) (user r) (project r) (starttime r) e t (runs r) (status r).

(** ** Exceptions, events and the server state *)

Inductive Exn :=
| MarxanServicesError (msg : string)
| HTTPError (code : Z) (msg : string)
| WebSocketClosedError
| AttributeError (name : string)
| UnboundLocalError (name : string)
| NameError (name : string)
| ValueError
| ProcessLookupError
| PermissionError
| OtherOSError (winerror : Z)
| IntegrityError (msg : string)
| UniqueViolation (msg : string)
| OperationalError (msg : string)
| InternalError (msg : string)
| CancelledError
| OtherError (msg : string).

(** What the server does to the outside world, in the order it does it. *)
Inductive Event :=
| EvWrite (frame : Message)        (* a frame delivered on the WebSocket *)
| EvSendResponse (m : Message)     (* a call of [send_response] *)
| EvWarning (text : string)        (* [logging.warning] *)
| EvRemove (path : string)         (* [os.remove] *)
| EvSpawn (p : Z)                  (* a child process was started *)
| EvKill (p : Z)                   (* [os.kill] delivered SIGKILL *)
| EvStreamOutput                   (* [spawn_callback(stream_marxan_output)] *)
| EvAcquire (conn : Z)             (* [pool.acquire] returned *)
| EvRelease (conn : Z)             (* [pool.release] *)
| EvBackendPid (n : Z)             (* [get_backend_pid] answered *)
| EvExecute (sql : string)         (* [cur.execute] was entered *)
| EvFetchAll.                      (* [cur.fetchall] answered *)

Record Server := mkServer {
  (* files *)
  ledger : list Row;                    (* runlog.dat *)
  fs : gmap string (list string);       (* directory -> names of its files *)
  (* operating system *)
  procs : gmap Z bool;                  (* live pid -> may we signal it *)
  clock : Z;                            (* seconds *)
  (* connection pool *)
  outstanding : Z;
  (* the WebSocket of the handler *)
  channel_open : bool;
  trace : list Event;
  (* the request *)
  req_user : option string;
  req_project : option string;
  req_uri : string;
  (* attributes of [self]; [None] when the attribute is not set *)
  self_startTime : option Z;
  self_user : option string;
  self_project : option string;
  self_pid : option string;
  self_marxanProcess : option Z;
  self_numRunsRequired : option Z;
  self_pc : option bool;                (* PeriodicCallback, is_running *)
  self_clientSentFinalMsg : option bool
}.

Definition with_ledger (v : list Row) (s : Server) : Server :=
  mkServer v (fs s) (procs s) (clock s) (outstanding s) (channel_open s)
    (trace s) (req_user s) (req_project s) (req_uri s) (self_startTime s)
    (self_user s) (self_project s) (self_pid s) (self_marxanProcess s)
    (self_numRunsRequired s) (self_pc s) (self_clientSentFinalMsg s).

Definition with_fs (v : gmap string (list string)) (s : Server) : Server :=
  mkServer (ledger s) v (procs s) (clock s) (outstanding s) (channel_open s)
    (trace s) (req_user s) (req_project s) (req_uri s) (self_startTime s)
    (self_user s) (self_project s) (self_pid s) (self_marxanProcess s)
    (self_numRunsRequired s) (self_pc s) (self_clientSentFinalMsg s).

Definition with_procs (v : gmap Z bool) (s : Server) : Server :=
  mkServer (ledger s) (fs s) v (clock s) (outstanding s) (channel_open s)
    (trace s) (req_user s) (req_project s) (req_uri s) (self_startTime s)
    (self_user s) (self_project s) (self_pid s) (self_marxanProcess s)
    (self_numRunsRequired s) (self_pc s) (self_clientSentFinalMsg s).

Definition with_outstanding (v : Z) (s : Server) : Server :=
  mkServer (ledger s) (fs s) (procs s) (clock s) v (channel_open s)
    (trace s) (req_user s) (req_project s) (req_uri s) (self_startTime s)
    (self_user s) (self_project s) (self_pid s) (self_marxanProcess s)
    (self_numRunsRequired s) (self_pc s) (self_clientSentFinalMsg s).

Definition with_channel_open (v : bool) (s : Server) : Server :=
  mkServer (ledger s) (fs s) (procs s) (clock s) (outstanding s) v
    (trace s) (req_user s) (req_project s) (req_uri s) (self_startTime s)
    (self_user s) (self_project s) (self_pid s) (self_marxanProcess s)
    (self_numRunsRequired s) (self_pc s) (self_clientSentFinalMsg s).

Definition with_trace (v : list Event) (s : Server) : Server :=
  mkServer (ledger s) (fs s) (procs s) (clock s) (outstanding s)
    (channel_open s) v (req_user s) (req_project s) (req_uri s)
    (self_startTime s) (self_user s) (self_project s) (self_pid s)
    (self_marxanProcess s) (self_numRunsRequired s) (self_pc s)
    (self_clientSentFinalMsg s).

Definition with_startTime (v : option Z) (s : Server) : Server :=
  mkServer (ledger s) (fs s) (procs s) (clock s) (outstanding s)
    (channel_open s) (trace s) (req_user s) (req_project s) (req_uri s) v
    (self_user s) (self_project s) (self_pid s) (self_marxanProcess s)
    (self_numRunsRequired s) (self_pc s) (self_clientSentFinalMsg s).

Definition with_user (v : option string) (s : Server) : Server :=
  mkServer (ledger s) (fs s) (procs s) (clock s) (outstanding s)
    (channel_open s) (trace s) (req_user s) (req_project s) (req_uri s)
    (self_startTime s) v (self_project s) (self_pid s)
    (self_marxanProcess s) (self_numRunsRequired s) (self_pc s)
    (self_clientSentFinalMsg s).

Definition with_project (v : option string) (s : Server) : Server :=
  mkServer (ledger s) (fs s) (procs s) (clock s) (outstanding s)
    (channel_open s) (trace s) (req_user s) (req_project s) (req_uri s)
    (self_startTime s) (self_user s) v (self_pid s)
    (self_marxanProcess s) (self_numRunsRequired s) (self_pc s)
    (self_clientSentFinalMsg s).

Definition with_pid (v : option string) (s : Server) : Server :=
  mkServer (ledger s) (fs s) (procs s) (clock s) (outstanding s)
    (channel_open s) (trace s) (req_user s) (req_project s) (req_uri s)
    (self_startTime s) (self_user s) (self_project s) v
    (self_marxanProcess s) (self_numRunsRequired s) (self_pc s)
    (self_clientSentFinalMsg s).

Definition with_marxanProcess (v : option Z) (s : Server) : Server :=
  mkServer (ledger s) (fs s) (procs s) (clock s) (outstanding s)
    (channel_open s) (trace s) (req_user s) (req_project s) (req_uri s)
    (self_startTime s) (self_user s) (self_project s) (self_pid s) v
    (self_numRunsRequired s) (self_pc s) (self_clientSentFinalMsg s).

Definition with_numRunsRequired (v : option Z) (s : Server) : Server :=
  mkServer (ledger s) (fs s) (procs s) (clock s) (outstanding s)
    (channel_open s) (trace s) (req_user s) (req_project s) (req_uri s)
    (self_startTime s) (self_user s) (self_project s) (self_pid s)
    (self_marxanProcess s) v (self_pc s) (self_clientSentFinalMsg s).

Definition with_pc (v : option bool) (s : Server) : Server :=
  mkServer (ledger s) (fs s) (procs s) (clock s) (outstanding s)
    (channel_open s) (trace s) (req_user s) (req_project s) (req_uri s)
    (self_startTime s) (self_user s) (self_project s) (self_pid s)
    (self_marxanProcess s) (self_numRunsRequired s) v
    (self_clientSentFinalMsg s).

Definition with_clientSentFinalMsg (v : option bool) (s : Server) : Server :=
  mkServer (ledger s) (fs s) (procs s) (clock s) (outstanding s)
    (channel_open s) (trace s) (req_user s) (req_project s) (req_uri s)
    (self_startTime s) (self_user s) (self_project s) (self_pid s)
    (self_marxanProcess s) (self_numRunsRequired s) (self_pc s) v.

(** ** The monad: state passing with Python exceptions *)

Inductive Res (A : Type) :=
| Ok (a : A)
| Raise (e : Exn).
Arguments Ok {A} a.
Arguments Raise {A} e.

Definition M (A : Type) : Type := Server -> Res A * Server.

Definition ret {A} (a : A) : M A := fun s => (Ok a, s).

Definition raise {A} (e : Exn) : M A := fun s => (Raise e, s).

Definition bind {A B} (m : M A) (k : A -> M B) : M B :=
  fun s =>
    match m s with
    | (Ok a, s1) => k a s1
    | (Raise e, s1) => (Raise e, s1)
    end.

(** [try: m except <handled by h>: ...]: [h e] is [None] when no clause
    matches [e]. *)
Definition try_except {A} (m : M A) (h : Exn -> option (M A)) : M A :=
  fun s =>
    match m s with
    | (Ok a, s1) => (Ok a, s1)
    | (Raise e, s1) =>
        match h e with
        | Some k => k s1
        | None => (Raise e, s1)
        end
    end.

(** [try: m finally: f]: an exception of [f] replaces the outcome of [m]. *)
Definition try_finally {A} (m : M A) (f : M unit) : M A :=
  fun s =>
    match m s with
    | (r, s1) =>
        match f s1 with
        | (Ok _, s2) => (r, s2)
        | (Raise e, s2) => (Raise e, s2)
        end
    end.

(** [try: m except <handled by h>: ... else: k]: the clauses of [h] do not
    guard [k]. *)
Definition try_except_else {A B} (m : M A) (h : Exn -> option (M B))
    (k : A -> M B) : M B :=
  fun s =>
    match m s with
    | (Ok a, s1) => k a s1
    | (Raise e, s1) =>
        match h e with
        | Some r => r s1
        | None => (Raise e, s1)
        end
    end.

Definition get : M Server := fun s => (Ok s, s).

Definition modify (f : Server -> Server) : M unit := fun s => (Ok tt, f s).

Definition emit (e : Event) : M unit :=
  modify (fun s => with_trace (trace s ++ [e]) s).

(** Reading an attribute of [self] that may not have been set. *)
Definition getattr {A} (name : string) (f : Server -> option A) : M A :=
  fun s =>
    match f s with
    | Some a => (Ok a, s)
    | None => (Raise (AttributeError name), s)
    end.

(** A result handed over by the environment. *)
Definition lift {A} (r : Res A) : M A :=
  match r with
  | Ok a => ret a
  | Raise e => raise e
  end.

(** [for x in l: body(x)] *)
Fixpoint for_each {A} (l : list A) (body : A -> M unit) : M unit :=
  match l with
  | [] => ret tt
  | x :: l' => bind (body x) (fun _ => for_each l' body)
  end.

Notation "'do' x <- m ; k" := (bind m (fun x => k))
  (at level 10, x name, m at level 100, k at level 200).
Notation "'run' m ; k" := (bind m (fun _ => k))
  (at level 10, m at level 100, k at level 200).

(** ** Configuration

    Module level constants whose value depends on the installation, the
    platform test [platform.system() == "Windows"], and the rendering
    [strftime("%d/%m/%y %H:%M:%S")] of a clock reading. *)

Record Config := mkConfig {
  MARXAN_USERS_FOLDER : string;
  os_sep : string;
  MARXAN_EXECUTABLE : string;
  ERRORS_PAGE : string;
  is_windows : bool;
  strftime : Z -> string
}.

(** ** The environment of a handler *)

(** What happens around a handler while it runs [open]. *)
Record OpenEnv := mkOpenEnv {
  (* the peer goes away while [_getProjectData] is awaited *)
  peer_leaves : bool;
  (* [_getProjectData] raises *)
  project_data_error : option Exn;
  (* the last line of the traceback of the [HTTPError] raised by
     [_authenticate], [_authoriseRole] or [_authoriseUser] *)
  auth_denied : option string
}.

(** What the database and the pool answer during one call of [execute]. *)
Record DbEnv := mkDbEnv {
  db_acquire : Res Z;             (* the connection, named by its backend pid *)
  db_cursor : option Exn;         (* [conn.cursor()] raises *)
  db_mogrify : Res string;        (* [cur.mogrify(sql, data)] *)
  db_debug : option Exn;          (* [_debugSQLStatement] raises *)
  db_backend_pid : option Exn;    (* [get_backend_pid()] raises *)
  db_execute : option Exn;        (* [cur.execute(sql)] raises *)
  db_fetchall : Res (list (list string));
  db_frame : option Exn           (* building or writing the data frame raises *)
}.

Inductive Format := Array | DataFrame | Dict | File | OtherFormat.

Inductive Records :=
| NoRecords                                   (* [None] *)
| RecordsArray (rows : list (list string))
| RecordsDataFrame (rows : list (list string))
| RecordsDict (rows : list (list string)).

(** What happens around [runMarxan.open]. *)
Record RunEnv := mkRunEnv {
  open_env : OpenEnv;
  spawn : Res Z;                 (* the pid of the child, or why there is none *)
  stdin_error : option Exn;      (* writing to or closing its stdin raises *)
  numreps : Res Z                (* NUMREPS of the project's input.dat *)
}.

(** ** A sample installation

    One user, [andrew], with one project, [Tonga], whose job has pid 1234
    and needs three runs. *)

Definition cfg0 : Config :=
  mkConfig "/opt/marxan-server/users/" "/"
           "/opt/marxan-server/marxan/MarOpt_v243_Linux64"
           "https://docs.marxanweb.org/errors.html" false py_str.

Definition tonga : string := "/opt/marxan-server/users/andrew/Tonga/".

Definition tonga_output : string :=
  "/opt/marxan-server/users/andrew/Tonga/output/".

(** The row of the job, with the given [runs] and [status]. *)
Definition row0 (r : string) (st : Status) : Row :=
  mkRow 1234 "andrew" "Tonga" "01/02/21 10:00:00" "" "" r st.

(** The server with run log [L], output files [files] and live processes
    [ps], seen from the handler of the job; [flag] is the attribute
    [clientSentFinalMsg]. *)
Definition server0 (L : list Row) (files : list string) (ps : gmap Z bool)
    (channel : bool) (flag : option bool) : Server :=
  mkServer L (<[tonga_output := files]> {[tonga := ["input.dat"]]}) ps
           100 0 channel [] (Some "andrew") (Some "Tonga")
           "/marxan-server/runMarxan?user=andrew&project=Tonga"
           (Some 40) (Some "andrew") (Some "Tonga") None (Some 1234)
           (Some 3) (Some true) flag.

(** The same request before [open] has run. *)
Definition fresh0 (L : list Row) (files : list string) : Server :=
  mkServer L (<[tonga_output := files]> {[tonga := ["input.dat"]]}) ∅
           100 0 true [] (Some "andrew") (Some "Tonga")
           "/marxan-server/runMarxan?user=andrew&project=Tonga"
           None None None None None None None None.

(** The next request for the same user and project: a new handler, on an
    open channel, in front of the same files and processes. *)
Definition new_request (s : Server) : Server :=
  mkServer (ledger s) (fs s) (procs s) (clock s) (outstanding s) true []
           (req_user s) (req_project s) (req_uri s)
           None None None None None None None None.

(** Marxan has written the output files [files] of the sample project. *)
Definition marxan_writes (files : list string) (s : Server) : Server :=
  with_fs (<[tonga_output := files]> (fs s)) s.

(** An environment in which the request is accepted and Marxan starts
    with pid [p]; the project asks for three runs. *)
Definition starts (p : Z) : RunEnv :=
  mkRunEnv (mkOpenEnv false None None) (Ok p) None (Ok 3).

(** A handler of a query request of [andrew], after [open]. *)
Definition query_session : Server :=
  mkServer [] ∅ ∅ 100 0 true [] (Some "andrew") None
           "/marxan-server/preprocessFeature?user=andrew"
           (Some 40) (Some "andrew") None None None None (Some true)
           (Some false).

(** A database that answers every call. *)
Definition quiet_db : DbEnv :=
  mkDbEnv (Ok 77) None (Ok "SELECT pg_cancel_backend('77');") None None None
          (Ok []) None.


(** A session of [andrew] for a project that has no folder. *)
Definition fiji_session : Server :=
  mkServer [] ∅ ∅ 100 0 true [] (Some "andrew") (Some "Fiji")
           "/marxan-server/runMarxan?user=andrew&project=Fiji"
           (Some 40) (Some "andrew") (Some "Fiji") None None None (Some true)
           (Some false).


(** A database whose query ends with the error [e]. *)
Definition failing_db (e : Exn) : DbEnv :=
  mkDbEnv (Ok 77) None (Ok "SELECT 1;") None None (Some e) (Ok []) None.

(** A database that cannot hand out a connection. *)
Definition closed_db : DbEnv :=
  mkDbEnv (Raise (OperationalError "connection refused")) None
          (Ok "SELECT 1;") None None None (Ok []) None.

(** A request that the authorisation refuses. *)
Definition refused : RunEnv :=
  mkRunEnv (mkOpenEnv false None
              (Some "tornado.web.HTTPError: HTTP 403: Forbidden"))
           (Ok 4321) None (Ok 3).

Section Server.

Variable cfg : Config.

(** ** Files *)

(** [obj.folder_project] and [obj.folder_output] as [_setFolderPaths]
    builds them; [_getRunLogs] rebuilds the second from a row. *)
Definition folder_project_for (u p : string) : string :=
  MARXAN_USERS_FOLDER cfg +:+ u +:+ os_sep cfg +:+ p +:+ os_sep cfg.

Definition folder_output_for (u p : string) : string :=
  folder_project_for u p +:+ "output" +:+ os_sep cfg.

(** The names [glob.glob(folder + prefix + "*")] matches. *)
Definition glob (F : gmap string (list string)) (folder pre : string)
  : list string :=
  List.filter (fun name => String.prefix pre name && negb (String.prefix "." name))
    (default [] (F !! folder)).

Definition _getNumberOfRunsCompleted (F : gmap string (list string))
    (folder_output : string) : Z :=
  Z.of_nat (length (glob F folder_output "output_r")).

(** ** Reading the run log *)

Definition is_running (r : Row) : bool := Status_eqb (status r) Running.

Definition running_for (u p : string) (r : Row) : bool :=
  is_running r && String.eqb (user r) u && String.eqb (project r) p.

Definition frame_empty {A} (l : list A) : bool :=
  match l with
  | [] => true
  | _ :: _ => false
  end.

Definition _isProjectRunning (u p : string) : M bool :=
  do s <- get;
  ret (negb (frame_empty (List.filter (running_for u p) (ledger s)))).

(** One iteration of the loop of [_getRunLogs]: [row] comes from the
    snapshot [runningProjects], the update is made in [df] at the first
    row that has the pid of [row].  That row always exists, since [row]
    itself is in [df] (see [refresh_runs_hits]). *)
Definition refresh_runs (F : gmap string (list string)) (df : list Row)
    (row : Row) : list Row :=
  let n := _getNumberOfRunsCompleted F
             (folder_output_for (user row) (project row)) in
  match list_find (fun x => pid x = pid row) df with
  | Some (i, x) =>
      <[i := set_runs (py_str n +:+
                       py_slice_from (py_find "/" (runs x)) (runs x)) x]> df
  | None => df
  end.

Definition run_logs (F : gmap string (list string)) (L : list Row)
  : list Row :=
  foldl (refresh_runs F) L (List.filter is_running L).


(** ** Rewriting the run log *)

(** [if x:] for [x] an [int] or [None]. *)
Definition truthy (o : option Z) : bool :=
  match o with
  | Some z => negb (z =? 0)
  | None => false
  end.

Definition update_error (p : Z) (st : Status) : Exn :=
  MarxanServicesError ("Unable to update run log for pid " +:+ py_str p +:+
                       " with status " +:+ status_text st).

Definition _updateRunLog (p : Z) (startTime numRunsCompleted
    numRunsRequired : option Z) (st : Status) : M Status :=
  do s <- get;
  let df := run_logs (fs s) (ledger s) in
  match list_find (fun x => pid x = p) df with
  | None => raise (update_error p st)
  | Some (i, r) =>
      let r1 :=
        match startTime with
        | Some t0 =>
            set_times (strftime cfg (clock s))
                      (py_str ((clock s - t0) mod 86400) +:+ "s") r
        | None => r
        end in
      let r2 :=
        if truthy numRunsCompleted
        then set_runs (py_str_opt numRunsCompleted +:+ "/" +:+
                       py_str_opt numRunsRequired) r1
        else r1 in
      let r3 :=
        if is_running r2 then set_status st r2 else r2 in
      run modify (with_ledger (<[i := r3]> df));
      ret (status r3)
  end.

(** ** MarxanWebSocketHandler *)

(** [tornado.websocket.WebSocketHandler.write_message]: a frame is
    delivered on an open connection, a closed one raises
    [WebSocketClosedError]. *)
Definition write_message (m : Message) : M unit :=
  do s <- get;
  if channel_open s then emit (EvWrite m) else raise WebSocketClosedError.

(** [tornado.websocket.WebSocketHandler.close]. *)
Definition super_close : M unit := modify (with_channel_open false).

(** The seconds component of [datetime.now() - t0]. *)
Definition elapsed (s : Server) (t0 : Z) : string :=
  py_str ((clock s - t0) mod 86400) +:+ "s".

(** [close] and [send_response] call each other: [close] is written over
    the [send] it uses, which only its clean branch calls. *)
Definition close_with (send : Message -> M unit) (closeMessage : Message)
    (clean : bool) : M unit :=
  do s <- get;
  run (match self_pc s with
       | Some true => modify (with_pc (Some false))
       | _ => ret tt
       end);
  run (if clean then
         let m := <["status" := "Finished"]> closeMessage in
         run send m;
         run (match m !! "error" with
              | Some e => emit (EvWarning e)
              | None => ret tt
              end);
         modify (with_clientSentFinalMsg (Some true))
       else
         do final <- getattr "clientSentFinalMsg" self_clientSentFinalMsg;
         if negb final then
           do s1 <- get;
           run emit (EvWarning ("The client closed the connection: " +:+
                                req_uri s1));
           modify (with_clientSentFinalMsg (Some true))
         else ret tt);
  super_close.

Definition send_response (message : Message) : M unit :=
  run emit (EvSendResponse message);
  do t0 <- getattr "startTime" self_startTime;
  do s <- get;
  let m1 := <["elapsedtime" := elapsed s t0]> message in
  let m2 := match req_user s with
            | Some u => <["user" := u]> m1
            | None => m1
            end in
  let m3 := match self_pid s with
            | Some q => <["pid" := q]> m2
            | None => m2
            end in
  let m4 := match self_marxanProcess s with
            | Some p => <["pid" := "m" +:+ py_str p]> m3
            | None => m3
            end in
  try_except (write_message m4)
    (fun e => match e with
              | WebSocketClosedError =>
                  Some (close_with (fun _ => ret tt) ∅ false)
              | _ => None
              end).

Definition close (closeMessage : Message) (clean : bool) : M unit :=
  close_with send_response closeMessage clean.

Definition _getExceptionLastLine (lastLine : string) : string :=
  py_slice_from (py_find ":" lastLine + 2) lastLine.

(** [_setFolderPaths]: request arguments are taken without surrounding
    white space, so that [get_argument] and the raw argument agree. *)
Definition _setFolderPaths : M unit :=
  do s <- get;
  match req_user s with
  | Some u =>
      run modify (with_user (Some u));
      match req_project s with
      | Some p => modify (with_project (Some p))
      | None => ret tt
      end
  | None => ret tt
  end.

(** [hasattr(self, "folder_project")]: the folder attributes are set
    together with [self.project]. *)
Definition folder_project : M string :=
  do s <- get;
  match self_user s, self_project s with
  | Some u, Some p => ret (folder_project_for u p)
  | _, _ => raise (AttributeError "folder_project")
  end.

Definition folder_output : M string :=
  do s <- get;
  match self_user s, self_project s with
  | Some u, Some p => ret (folder_output_for u p)
  | _, _ => raise (AttributeError "folder_output")
  end.

Definition step (o : option Exn) : M unit :=
  match o with
  | Some e => raise e
  | None => ret tt
  end.

Definition MarxanWebSocketHandler_open (env : OpenEnv)
    (startMessage : Message) : M unit :=
  try_except
    (do s0 <- get;
     run modify (with_startTime (Some (clock s0)));
     run send_response (<["status" := "Started"]> startMessage);
     do s1 <- get;
     run (match req_user s1 with
          | Some _ =>
              run _setFolderPaths;
              do s2 <- get;
              match self_project s2 with
              | Some _ =>
                  (* await _getProjectData(self) *)
                  run (if peer_leaves env
                       then modify (with_channel_open false) else ret tt);
                  step (project_data_error env)
              | None => ret tt
              end
          | None => ret tt
          end);
     run (match auth_denied env with
          | Some line => raise (HTTPError 403 line)
          | None => ret tt
          end);
     run send_response (<["info" := "Preprocessing.."]>
                        (<["status" := "Preprocessing"]> ∅));
     run modify (with_pc (Some true));
     modify (with_clientSentFinalMsg (Some false)))
    (fun e => match e with
              | HTTPError _ line =>
                  Some (run close (<["error" := _getExceptionLastLine line]> ∅)
                              true;
                        raise (MarxanServicesError "Request denied"))
              | _ => None
              end).

(** ** PostGIS.execute *)

(** [isinstance(e, psycopg2.IntegrityError)]; [UniqueViolation] is a
    subclass. *)
Definition is_IntegrityError (e : Exn) : option string :=
  match e with
  | IntegrityError m | UniqueViolation m => Some m
  | _ => None
  end.

(** [isinstance(e, Exception)]: [asyncio.CancelledError] derives from
    [BaseException]. *)
Definition is_Exception (e : Exn) : bool :=
  match e with
  | CancelledError => false
  | _ => true
  end.

(** [e.args[0]] *)
Definition exn_text (e : Exn) : string :=
  match e with
  | MarxanServicesError m | HTTPError _ m | IntegrityError m
  | UniqueViolation m | OperationalError m | InternalError m
  | OtherError m | AttributeError m | UnboundLocalError m | NameError m => m
  | _ => ""
  end.

(** [needle in s] *)
Definition py_in (needle s : string) : bool :=
  match String.index 0 needle s with
  | Some _ => true
  | None => false
  end.

Definition pool_acquire (env : DbEnv) : M Z :=
  do c <- lift (db_acquire env);
  run modify (fun s => with_outstanding (outstanding s + 1) s);
  run emit (EvAcquire c);
  ret c.

Definition pool_release (c : Z) : M unit :=
  run modify (fun s => with_outstanding (outstanding s - 1) s);
  emit (EvRelease c).

(** The [except] clauses around [pool.acquire()]. *)
Definition acquire_failed (e : Exn) : option (M Records) :=
  match is_IntegrityError e with
  | Some m =>
      Some (raise (MarxanServicesError ("Database integrity error: " +:+ m)))
  | None =>
      match e with
      | OperationalError m =>
          Some (if py_in "terminating connection due to administrator command" m
                then raise (MarxanServicesError
                              "The database server was shutdown")
                else ret NoRecords)
      | _ =>
          if is_Exception e
          then Some (raise (MarxanServicesError (exn_text e)))
          else None
      end
  end.

(** The [if socketHandler:] block: the backend pid of the connection is
    set on the handler and sent to the client, prefixed with a [q]. *)
Definition publish_pid (env : DbEnv) (c : Z) : M unit :=
  run step (db_backend_pid env);
  run emit (EvBackendPid c);
  run modify (with_pid (Some ("q" +:+ py_str c)));
  send_response (<["pid" := "q" +:+ py_str c]> (<["status" := "pid"]> ∅)).

(** [cur.execute(sql)] with its [except] clauses. *)
Definition run_query (env : DbEnv) (sql : string) : M unit :=
  run emit (EvExecute sql);
  try_except (step (db_execute env))
    (fun e =>
       match e with
       | UniqueViolation _ =>
           Some (raise (MarxanServicesError "That item already exists"))
       | InternalError m =>
           Some (raise (MarxanServicesError ("Query stopped: " +:+ m)))
       | _ => None
       end).

(** The statements after the query has run. *)
Definition fetch_records (env : DbEnv) (returnFormat : option Format)
  : M Records :=
  match returnFormat with
  | None => ret NoRecords
  | Some f =>
      do records <- lift (db_fetchall env);
      run emit EvFetchAll;
      match f with
      | Array => ret (RecordsArray records)
      | _ =>
          run step (db_frame env);
          match f with
          | DataFrame => ret (RecordsDataFrame records)
          | Dict => ret (RecordsDict records)
          | _ => ret NoRecords
          end
      end
  end.

(** The [else] block of [execute], with the connection [c]. *)
Definition execute_body (env : DbEnv) (sql : string)
    (data : option (list string)) (returnFormat : option Format)
    (socketHandler : bool) (c : Z) : M Records :=
  run step (db_cursor env);
  do sql1 <- match data with
             | Some _ => lift (db_mogrify env)
             | None => ret sql
             end;
  run step (db_debug env);
  run (if socketHandler then publish_pid env c else ret tt);
  run run_query env sql1;
  fetch_records env returnFormat.

Definition execute (env : DbEnv) (sql : string) (data : option (list string))
    (returnFormat : option Format) (socketHandler : bool) : M Records :=
  (* the local variable [conn] is bound only if [acquire] returned *)
  let conn := match db_acquire env with
              | Ok c => Some c
              | Raise _ => None
              end in
  try_finally
    (try_except_else (pool_acquire env) acquire_failed
       (execute_body env sql data returnFormat socketHandler))
    (match conn with
     | Some c => pool_release c
     | None => raise (UnboundLocalError "conn")
     end).

(** [QueryWebSocketHandler.executeQuery] *)
Definition executeQuery (env : DbEnv) (sql : string)
    (data : option (list string)) (returnFormat : option Format)
  : M Records :=
  try_except (execute env sql data returnFormat true)
    (fun e =>
       match e with
       | OperationalError _ =>
           Some (run close (<["error" :=
                              "Preprocessing stopped by operating system"]> ∅)
                           true;
                 ret NoRecords)
       | CancelledError =>
           Some (do u <- getattr "user" self_user;
                 run close (<["error" := "Preprocessing stopped by " +:+ u]> ∅)
                           true;
                 ret NoRecords)
       | _ => None
       end).

(** ** runMarxan *)

(** [self.get_argument(name)]: tornado raises [MissingArgumentError], an
    [HTTPError] with status 400, for an argument that is not there. *)
Definition get_argument (name : string) (f : Server -> option string)
  : M string :=
  fun s =>
    match f s with
    | Some v => (Ok v, s)
    | None => (Raise (HTTPError 400 ("Missing argument " +:+ name)), s)
    end.

Definition os_remove (folder name : string) : M unit :=
  run emit (EvRemove (folder +:+ name));
  modify (fun s =>
    with_fs (alter (List.filter (fun n => negb (String.eqb n name)))
                   folder (fs s)) s).

Definition _deleteAllFiles (folder : string) : M unit :=
  do s <- get;
  for_each (glob (fs s) folder "")
    (fun name =>
       if negb (String.eqb (py_slice_to (-3) (folder +:+ name)) "dat")
       then os_remove folder name
       else ret tt).

(** [isinstance(e, OSError)] *)
Definition is_OSError (e : Exn) : bool :=
  match e with
  | ProcessLookupError | PermissionError | OtherOSError _ => true
  | _ => false
  end.

Definition winerror_of (e : Exn) : Z :=
  match e with
  | OtherOSError w => w
  | _ => 0
  end.

(** [Subprocess([MARXAN_EXECUTABLE], ...)] and [set_exit_callback]. *)
Definition Subprocess (o : Res Z) : M Z :=
  do p <- lift o;
  run emit (EvSpawn p);
  run modify (fun s => with_procs (<[p := true]> (procs s)) s);
  ret p.

Definition logRun : M unit :=
  do u <- get_argument "user" req_user;
  run modify (with_user (Some u));
  do p <- get_argument "project" req_project;
  run modify (with_project (Some p));
  do mp <- getattr "marxanProcess" self_marxanProcess;
  do n <- getattr "numRunsRequired" self_numRunsRequired;
  do s <- get;
  modify (with_ledger
            (ledger s ++ [mkRow mp u p (strftime cfg (clock s)) "" ""
                                ("0/" +:+ py_str n) Running])).

Definition already_running : string :=
  "The project is already running. See <a href='" +:+ ERRORS_PAGE cfg +:+
  "#the-project-is-already-running' target='blank'>here</a>".

Definition blocked_by_policy : string :=
  "The executable '" +:+ MARXAN_EXECUTABLE cfg +:+
  "' is blocked by group policy. For more information, contact your system administrator.".

(** The [try] block that starts Marxan and closes its stdin. *)
Definition spawnMarxan (env : RunEnv) : M unit :=
  do mp <- Subprocess (spawn env);
  run modify (with_marxanProcess (Some mp));
  step (stdin_error env).

(** Its clause [except (WindowsError) as e]: the name exists on Windows
    only, where it is [OSError]. *)
Definition spawn_failed (e : Exn) : option (M unit) :=
  if is_windows cfg then
    if is_OSError e then
      Some (if winerror_of e =? 1260
            then close (<["error" := blocked_by_policy]> ∅) true
            else ret tt)
    else None
  else Some (raise (NameError "WindowsError")).

(** Its [else] clause: no errors, the run is logged and its pid sent. *)
Definition started (env : RunEnv) : M unit :=
  do n <- lift (numreps env);
  run modify (with_numRunsRequired (Some n));
  do su <- getattr "user" self_user;
  run (if negb (String.eqb su "_clumping") then logRun else ret tt);
  do mp <- getattr "marxanProcess" self_marxanProcess;
  run send_response (<["status" := "pid"]> (<["pid" := "m" +:+ py_str mp]> ∅));
  emit EvStreamOutput.

(** The [else] branch of [runMarxan.open]: the request is authenticated
    and authorised, the job is started if it is not already running. *)
Definition startRun (env : RunEnv) : M unit :=
  do u <- get_argument "user" req_user;
  do p <- get_argument "project" req_project;
  do running <- _isProjectRunning u p;
  if running then
    close (<["info" := ""]> (<["error" := already_running]> ∅)) true
  else
    do fp <- folder_project;
    do s <- get;
    if bool_decide (is_Some (fs s !! fp)) then
      do fo <- folder_output;
      run _deleteAllFiles fo;
      try_except_else (spawnMarxan env) spawn_failed (fun _ => started env)
    else
      close (<["user" := u]>
             (<["project" := p]>
              (<["error" := "Project '" +:+ p +:+ "' does not exist"]> ∅)))
            true.

Definition runMarxan_open (env : RunEnv) : M unit :=
  try_except_else
    (MarxanWebSocketHandler_open (open_env env)
       (<["info" := "Running Marxan.."]> ∅))
    (fun e =>
       match e with
       | MarxanServicesError _ => Some (ret tt)
       | _ => None
       end)
    (fun _ => startRun env).

Definition run_completed (u p : string) : Message :=
  <["user" := u]> (<["project" := p]> (<["info" := "Run completed"]> ∅)).

Definition run_stopped (by_whom u p : string) : Message :=
  <["user" := u]> (<["project" := p]>
    (<["error" := "Run stopped by " +:+ by_whom]> ∅)).

(** [runMarxan.finishOutput], the exit callback of the child. *)
Definition finishOutput : M unit :=
  try_except
    (do mp <- getattr "marxanProcess" self_marxanProcess;
     do u <- getattr "user" self_user;
     if negb (String.eqb u "_clumping") then
       do fo <- folder_output;
       do s <- get;
       let numRunsCompleted := _getNumberOfRunsCompleted (fs s) fo in
       do required <- getattr "numRunsRequired" self_numRunsRequired;
       if numRunsCompleted =? required then
         do t0 <- getattr "startTime" self_startTime;
         run _updateRunLog mp (Some t0) (Some numRunsCompleted)
               (Some required) Completed;
         do p <- getattr "project" self_project;
         close (run_completed u p) true
       else
         do t0 <- getattr "startTime" self_startTime;
         do actualStatus <- _updateRunLog mp (Some t0) (Some numRunsCompleted)
                              (Some required) Killed;
         do p <- getattr "project" self_project;
         if Status_eqb actualStatus Stopped
         then close (run_stopped u u p) true
         else close (run_stopped "operating system" u p) true
     else
       do p <- getattr "project" self_project;
       close (run_completed u p) true)
    (fun e =>
       match e with
       | MarxanServicesError m => Some (close (<["error" := m]> ∅) true)
       | _ => None
       end).

(** The operating system reaps the child and tornado calls the exit
    callback. *)
Definition process_exit (p : Z) : M unit :=
  run modify (fun s => with_procs (delete p (procs s)) s);
  finishOutput.

(** ** stopProcess *)

(** [int(s)] for a plain decimal literal with an optional minus sign;
    anything else is a [ValueError] here. *)
Definition py_int (s : string) : option Z :=
  option_map Z.of_int (NilZero.int_of_string s).

(** [os.kill(p, signal.SIGKILL)]. [PermissionError] and
    [ProcessLookupError] are both subclasses of [OSError]. *)
Definition os_kill (p : Z) : M unit :=
  do s <- get;
  match procs s !! p with
  | None => raise ProcessLookupError
  | Some false => raise PermissionError
  | Some true =>
      run emit (EvKill p);
      modify (with_procs (delete p (procs s)))
  end.

(** [_raiseError]: the error is the response and is logged. *)
Definition _raiseError (msg : string) : M Message :=
  run emit (EvWarning msg);
  ret (<["error" := msg]> ∅).

(** [stopProcess.get]; the value is the JSON response. *)
Definition stopProcess_get (arg : option string) (db : DbEnv) : M Message :=
  try_except
    (do a <- match arg with
             | Some a => ret a
             | None => raise (MarxanServicesError "Missing input argument:pid")
             end;
     let pid := py_slice_from 1 a in
     try_except_else
       (if String.eqb (py_slice_to 1 a) "m" then
          do n <- match py_int pid with
                  | Some n => ret n
                  | None => raise ValueError
                  end;
          run _updateRunLog n None None None Stopped;
          os_kill n
        else
          run execute db "SELECT pg_cancel_backend(%s);" (Some [pid]) None
                false;
          ret tt)
       (fun e =>
          if is_OSError e
          then Some (raise (MarxanServicesError "The pid does not exist"))
          else None)
       (fun _ => ret (<["info" := "pid '" +:+ pid +:+ "' terminated"]> ∅)))
    (fun e =>
       match e with
       | MarxanServicesError m => Some (_raiseError m)
       | _ => None
       end).

(** ** clearRunLogs *)


(** ** runMarxan.stream_marxan_output *)

Definition newline : string := String (ascii_of_nat 10) "".

(** [chunks] is what [stdout.read_bytes] returns, read after read, until
    the stream is closed; the [StreamClosedError] of the last read ends
    the loop. *)
Definition stream_marxan_output (chunks : list string) : M unit :=
  if negb (is_windows cfg) then
    run for_each chunks
          (fun line =>
             do mp <- getattr "marxanProcess" self_marxanProcess;
             send_response
               (<["pid" := "m" +:+ py_str mp]>
                (<["status" := "RunningMarxan"]> (<["info" := line]> ∅))));
    do _ <- getattr "marxanProcess" self_marxanProcess;
    ret tt
  else
    send_response
      (<["status" := "RunningMarxan"]>
       (<["info" := "Streaming log not currently supported on Windows" +:+
                    newline]> ∅)).

(** ** Requests *)

Definition _getRESTMethod (path : string) : string :=
  let pos := py_rfind "/" path in
  if pos >? -1 then py_slice_from (pos + 1) path else "".

(** [arguments] is [request.arguments], from names to lists of values. *)
Definition _validateArguments (arguments : gmap string (list string))
    (argumentList : list string) : M unit :=
  for_each argumentList
    (fun argument =>
       match arguments !! argument with
       | None =>
           raise (MarxanServicesError ("Missing input argument:" +:+ argument))
       | Some _ => ret tt
       end).

(** ** Authentication and authorisation *)

(** [DISABLE_SECURITY] is read from [server.dat] when the server starts. *)
Variable DISABLE_SECURITY : bool.

Definition GUEST_USERNAME : string := "guest".

Definition NOT_AUTHENTICATED_ERROR : string :=
  "Request could not be authenticated. No secure cookie found.".

Definition ROLE_UNAUTHORISED_METHODS : list (string * list string) :=
  [("ReadOnly",
    ["createProject"; "createImportProject"; "upgradeProject";
     "deleteProject"; "cloneProject"; "createProjectGroup"; "deleteProjects";
     "renameProject"; "updateProjectParameters"; "getCountries";
     "deletePlanningUnitGrid"; "createPlanningUnitGrid";
     "uploadTilesetToMapBox"; "uploadFileToFolder"; "uploadFile";
     "importPlanningUnitGrid"; "createFeaturePreprocessingFileFromImport";
     "createUser"; "getUsers"; "updateUserParameters"; "getFeature";
     "importFeatures"; "getPlanningUnitsData"; "updatePUFile";
     "getSpeciesData"; "getSpeciesPreProcessingData"; "updateSpecFile";
     "getProtectedAreaIntersectionsData"; "getMarxanLog"; "getBestSolution";
     "getOutputSummary"; "getSummedSolution"; "getMissingValues";
     "preprocessFeature"; "preprocessPlanningUnits";
     "preprocessProtectedAreas"; "runMarxan"; "stopProcess";
     "testRoleAuthorisation"; "deleteFeature"; "deleteUser"; "getRunLogs";
     "clearRunLogs"; "updateWDPA"; "unzipShapefile";
     "getShapefileFieldnames"; "createFeatureFromLinestring";
     "runGapAnalysis"; "toggleEnableGuestUser"; "importGBIFData";
     "deleteGapAnalysis"; "shutdown"; "addParameter"; "block";
     "resetDatabase"; "cleanup"; "exportProject"; "importProject";
     "getCosts"; "updateCosts"; "deleteCost"; "runSQLFile";
     "exportPlanningUnitGrid"; "exportFeature"]);
   ("User",
    ["testRoleAuthorisation"; "deleteFeature"; "getUsers"; "deleteUser";
     "deletePlanningUnitGrid"; "clearRunLogs"; "updateWDPA";
     "toggleEnableGuestUser"; "shutdown"; "addParameter"; "block";
     "resetDatabase"; "cleanup"; "runSQLFile"]);
   ("Admin", [])].

(** The secure cookies of a request, decoded; [None] when the cookie is
    not there. *)
Record Cookies := mkCookies {
  cookie_user : option string;
  cookie_role : option string
}.

(** [get_current_user] *)
Definition current_user (ck : Cookies) : option string :=
  match cookie_user ck with
  | Some u => if String.eqb u "" then None else Some u
  | None => None
  end.

(** [obj.get_secure_cookie("role").decode("utf-8")] *)
Definition role_cookie (ck : Cookies) : M string :=
  match cookie_role ck with
  | Some r => ret r
  | None => raise (AttributeError "decode")
  end.

(** [d[k]] for a [dict] written as a list of items; a missing key is a
    [KeyError], which is one of the other errors here. *)
Definition py_getitem {A} (d : list (string * A)) (k : string) : M A :=
  match List.find (fun kv => String.eqb (fst kv) k) d with
  | Some kv => ret (snd kv)
  | None => raise (OtherError k)
  end.

Definition _authenticate (ck : Cookies) : M unit :=
  if DISABLE_SECURITY then ret tt
  else
    match current_user ck with
    | None => raise (HTTPError 401 NOT_AUTHENTICATED_ERROR)
    | Some _ => ret tt
    end.

Definition _authoriseRole (ck : Cookies) (method : string) : M unit :=
  if DISABLE_SECURITY then ret tt
  else
    do role <- role_cookie ck;
    do unauthorised <- py_getitem ROLE_UNAUTHORISED_METHODS role;
    if bool_decide (method ∈ unauthorised) then
      raise (HTTPError 403
               ("The '" +:+ role +:+
                "' role does not have permission to access the '" +:+
                method +:+ "' service"))
    else ret tt.

(** The user argument of the request is [req_user]. *)
Definition _authoriseUser (ck : Cookies) : M unit :=
  if DISABLE_SECURITY then ret tt
  else
    do s <- get;
    match req_user s with
    | Some u =>
        if bool_decide (Some u <> current_user ck) &&
           negb (String.eqb u "_clumping") &&
           bool_decide (current_user ck <> Some GUEST_USERNAME)
        then
          do role <- role_cookie ck;
          if negb (String.eqb role "Admin") then
            match current_user ck with
            | Some cu =>
                raise (HTTPError 403
                         ("The user '" +:+ cu +:+
                          "' has no permission to access a project of another user"))
            | None =>
                (* [str + None] is a [TypeError] *)
                raise (OtherError "TypeError")
            end
          else ret tt
        else ret tt
    | None => ret tt
    end.

(** The three checks [MarxanWebSocketHandler.open] makes on a request for
    [path], one after the other; [MarxanRESTHandler.prepare] makes the
    same three, in the same order, after its check of the referer. *)
Definition authorise (ck : Cookies) (path : string) : M unit :=
  run _authenticate ck;
  let method := _getRESTMethod path in
  run _authoriseRole ck method;
  _authoriseUser ck.

(** * The vocabulary of the properties *)

(** ** Rows *)

(** Two rows that differ at most in the [runs] column. *)
Definition same_but_runs (r r' : Row) : Prop :=
  pid r' = pid r /\ user r' = user r /\ project r' = project r /\
  starttime r' = starttime r /\ endtime r' = endtime r /\
  runtime r' = runtime r /\ status r' = status r.

(** What [_updateRunLog] writes into the row it has found. *)
Definition updated_row (s : Server) (t0 nc nr : option Z) (st : Status)
    (r : Row) : Row :=
  let r1 := match t0 with
            | Some t => set_times (strftime cfg (clock s))
                          (py_str ((clock s - t) mod 86400) +:+ "s") r
            | None => r
            end in
  let r2 := if truthy nc
            then set_runs (py_str_opt nc +:+ "/" +:+ py_str_opt nr) r1
            else r1 in
  if is_running r2 then set_status st r2 else r2.


(** What a start attempt may do to the run log: nothing, or append one
    [Running] row for the user and project of the request, which had no
    such row. *)
Definition appended (s s' : Server) : Prop :=
  ledger s' = ledger s \/
  exists row u p,
    ledger s' = ledger s ++ [row] /\
    req_user s = Some u /\ req_project s = Some p /\
    user row = u /\ project row = p /\ status row = Running /\
    List.filter (running_for u p) (ledger s) = [].

(** ** Traces *)

(** The frames that reached the peer. *)
Definition frames (tr : list Event) : list Message :=
  omap (fun e => match e with EvWrite m => Some m | _ => None end) tr.

(** The messages [send_response] was called with. *)
Definition responses (tr : list Event) : list Message :=
  omap (fun e => match e with EvSendResponse m => Some m | _ => None end) tr.

Definition is_finished (m : Message) : bool :=
  bool_decide (m !! "status" = Some "Finished").

(** The frame [send_response] writes for [message]. *)
Definition enriched (s : Server) (t0 : Z) (message : Message) : Message :=
  let m1 := <["elapsedtime" := elapsed s t0]> message in
  let m2 := match req_user s with
            | Some u => <["user" := u]> m1
            | None => m1
            end in
  let m3 := match self_pid s with
            | Some q => <["pid" := q]> m2
            | None => m2
            end in
  match self_marxanProcess s with
  | Some p => <["pid" := "m" +:+ py_str p]> m3
  | None => m3
  end.

(** The frame that carries a piece of the output of process [mp]. *)
Definition output_frame (s : Server) (t0 mp : Z) (line : string) : Message :=
  enriched s t0
    (<["pid" := "m" +:+ py_str mp]>
     (<["status" := "RunningMarxan"]> (<["info" := line]> ∅))).

(** The message that carries the backend pid [c]. *)
Definition pid_message (c : Z) : Message :=
  <["pid" := "q" +:+ py_str c]> (<["status" := "pid"]> ∅).

Definition not_pool (e : Event) : Prop :=
  match e with
  | EvAcquire _ | EvRelease _ => False
  | _ => True
  end.

Definition not_query (e : Event) : Prop :=
  match e with
  | EvExecute _ => False
  | _ => True
  end.

(** Events that do not touch files or processes. *)
Definition quiet (e : Event) : Prop :=
  match e with
  | EvRemove _ | EvSpawn _ | EvKill _ | EvStreamOutput => False
  | _ => True
  end.

Definition any_event (e : Event) : Prop := True.

(** What a call of [execute] with a handler adds to the trace: nothing
    that enters [cur.execute], or the backend pid and its publication
    before the one entry into [cur.execute]. *)
Definition published (c : Z) (s s' : Server) : Prop :=
  exists new, trace s' = trace s ++ new /\
    (Forall not_query new \/
     exists more q rest,
       new = EvBackendPid c :: EvSendResponse (pid_message c) ::
             more ++ EvExecute q :: rest /\
       Forall not_query more /\ Forall not_query rest /\
       self_pid s' = Some ("q" +:+ py_str c)).

(** ** Files *)

(** The test [f[:-3] != 'dat'] of [_deleteAllFiles] on the file [name] of
    [folder]. *)
Definition removable (folder name : string) : bool :=
  negb (String.eqb (py_slice_to (-3) (folder +:+ name)) "dat").

(** A directory listing after the files [names] have been removed. *)
Definition without (names : list string) (l : list string) : list string :=
  List.filter (fun n => forallb (fun name => negb (String.eqb n name)) names)
    l.

(** ** Sessions *)

(** Calls made on a session from outside, one after the other. *)
Inductive Call :=
| Send (m : Message)
| Close (m : Message) (clean : bool).

Definition call (c : Call) : M unit :=
  match c with
  | Send m => send_response m
  | Close m clean => close m clean
  end.

(** The state after the calls, and whether all of them returned. *)
Fixpoint calls (cs : list Call) (s : Server) : bool * Server :=
  match cs with
  | [] => (true, s)
  | c :: cs' =>
      match call c s with
      | (Ok _, s1) => calls cs' s1
      | (Raise _, s1) => (false, snd (calls cs' s1))
      end
  end.

(** Everything but the trace. *)
Definition untraced (s : Server) : Server := with_trace [] s.

(** A session that has been closed cleanly. *)
Definition finalized (s : Server) : Prop :=
  channel_open s = false /\ self_clientSentFinalMsg s = Some true /\
  is_Some (self_startTime s) /\ self_pc s <> Some true.

(** The attributes [runMarxan.open] has set on a handler whose job was
    started. *)
Definition job_session (s : Server) (mp : Z) (u p : string)
    (required t0 : Z) : Prop :=
  self_marxanProcess s = Some mp /\ self_user s = Some u /\
  self_project s = Some p /\ self_numRunsRequired s = Some required /\
  self_startTime s = Some t0 /\ is_Some (self_clientSentFinalMsg s).


(** ** Parts of the state

    A computation keeps a [view] of the state when it leaves the view as
    it is and adds only [ok] events to the trace. *)

(** Run log, files, processes and the request. *)
Definition world (s : Server) :=
  (ledger s, fs s, procs s, req_user s, req_project s).



(** Run log and the user of the handler. *)
Definition logged_user (s : Server) := (ledger s, self_user s).

(** Run log, files, processes, and the process of the handler. *)
Definition job_world (s : Server) := (world s, self_marxanProcess s).

Definition stays {V} (view : Server -> V) (ok : Event -> Prop)
    (s s' : Server) : Prop :=
  view s' = view s /\
  exists new, trace s' = trace s ++ new /\ Forall ok new.

Definition keeps {V} (view : Server -> V) (ok : Event -> Prop) {A}
    (m : M A) : Prop :=
  forall s, stays view ok s (snd (m s)).

(** * Properties *)

(** ** Rows and the run log *)

Lemma same_but_runs_refl r : same_but_runs r r.
Proof. repeat split. Qed.

Lemma same_but_runs_trans r1 r2 r3 :
  same_but_runs r1 r2 -> same_but_runs r2 r3 -> same_but_runs r1 r3.
Proof.
  unfold same_but_runs. intros (?&?&?&?&?&?&?) (?&?&?&?&?&?&?).
  repeat split; congruence.
Qed.

Lemma same_but_runs_set_runs v r : same_but_runs r (set_runs v r).
Proof. repeat split. Qed.

Lemma Forall2_same_refl (L : list Row) : Forall2 same_but_runs L L.
Proof. induction L; constructor; auto using same_but_runs_refl. Qed.

Lemma Forall2_same_trans (L1 L2 L3 : list Row) :
  Forall2 same_but_runs L1 L2 -> Forall2 same_but_runs L2 L3 ->
  Forall2 same_but_runs L1 L3.
Proof.
  intros H. revert L3. induction H; intros L3 H3; inversion H3; subst;
    constructor; eauto using same_but_runs_trans.
Qed.

Lemma Forall2_same_insert (L : list Row) i r v :
  L !! i = Some r -> Forall2 same_but_runs L (<[i := set_runs v r]> L).
Proof.
  revert i. induction L as [|x L IH]; intros [|i] Hi; simpl in *;
    try discriminate.
  - inversion Hi; subst. constructor;
      auto using same_but_runs_set_runs, Forall2_same_refl.
  - constructor; auto using same_but_runs_refl.
Qed.

Lemma refresh_runs_same F df row :
  Forall2 same_but_runs df (refresh_runs F df row).
Proof.
  unfold refresh_runs.
  destruct (list_find _ df) as [[i x]|] eqn:E.
  - apply list_find_Some in E as (Hi & _ & _).
    now apply Forall2_same_insert.
  - apply Forall2_same_refl.
Qed.

Lemma foldl_refresh_same F rows : forall df,
  Forall2 same_but_runs df (foldl (refresh_runs F) df rows).
Proof.
  induction rows as [|row rows IH]; intros df; simpl.
  - apply Forall2_same_refl.
  - eapply Forall2_same_trans; [apply refresh_runs_same | apply IH].
Qed.

Lemma run_logs_same F L : Forall2 same_but_runs L (run_logs F L).
Proof. apply foldl_refresh_same. Qed.

(** The row a pid selects sits at the same place before and after the
    recount. *)
Lemma list_find_same (p : Z) (L L' : list Row) :
  Forall2 same_but_runs L L' ->
  match list_find (fun x => pid x = p) L with
  | Some (i, r) =>
      exists r', list_find (fun x => pid x = p) L' = Some (i, r') /\
                 same_but_runs r r'
  | None => list_find (fun x => pid x = p) L' = None
  end.
Proof.
  induction 1 as [|x y L L' Hxy HL IH]; simpl; [reflexivity|].
  assert (Hp : pid y = pid x) by apply Hxy.
  destruct (decide (pid x = p)) as [Hx|Hx];
    destruct (decide (pid y = p)) as [Hy|Hy]; try congruence.
  - exists y. split; [reflexivity | assumption].
  - destruct (list_find _ L) as [[i r]|].
    + destruct IH as (r' & -> & Hr). simpl. eauto.
    + rewrite IH. reflexivity.
Qed.

(** The loop of [_getRunLogs] always finds the row it updates. *)
Lemma refresh_runs_hits (df : list Row) row :
  (exists x, x ∈ df /\ pid x = pid row) ->
  is_Some (list_find (fun x => pid x = pid row) df).
Proof.
  intros (x & Hin & Hp). eapply list_find_elem_of; eauto.
Qed.

(** A row is recounted only if some running row carries its pid. *)
Lemma refresh_runs_other F (df : list Row) row i r :
  df !! i = Some r -> pid row <> pid r ->
  refresh_runs F df row !! i = Some r.
Proof.
  intros Hi Hne. unfold refresh_runs.
  destruct (list_find _ df) as [[j x]|] eqn:E; [|assumption].
  apply list_find_Some in E as (Hj & Hp & _).
  destruct (decide (j = i)) as [->|Hji].
  - rewrite Hi in Hj. inversion Hj; subst. congruence.
  - rewrite list_lookup_insert_ne; auto.
Qed.

Lemma foldl_refresh_other F rows : forall (df : list Row) i r,
  df !! i = Some r ->
  Forall (fun row => pid row <> pid r) rows ->
  foldl (refresh_runs F) df rows !! i = Some r.
Proof.
  induction rows as [|row rows IH]; intros df i r Hi Hall; simpl; auto.
  inversion Hall; subst. apply IH; auto. now apply refresh_runs_other.
Qed.

Lemma run_logs_other F (L : list Row) i r :
  L !! i = Some r ->
  (forall q, q ∈ L -> status q = Running -> pid q <> pid r) ->
  run_logs F L !! i = Some r.
Proof.
  intros Hi Hq. apply foldl_refresh_other; auto.
  apply List.Forall_forall. intros row Hin.
  apply List.filter_In in Hin as [Hin Hrun].
  apply Hq; [now apply list_elem_of_In|].
  unfold is_running in Hrun. destruct (status row); simpl in Hrun;
    congruence.
Qed.

Lemma Status_eqb_eq a b : Status_eqb a b = true <-> a = b.
Proof. destruct a, b; simpl; split; congruence. Qed.

Lemma is_running_true r : is_running r = true <-> status r = Running.
Proof. apply Status_eqb_eq. Qed.

Lemma updated_row_status s t0 nc nr st r :
  status (updated_row s t0 nc nr st r) =
  if is_running r then st else status r.
Proof.
  unfold updated_row, is_running.
  destruct r as [? ? ? ? ? ? ? []], t0, (truthy nc); reflexivity.
Qed.

Lemma updated_row_ids s t0 nc nr st r :
  pid (updated_row s t0 nc nr st r) = pid r /\
  user (updated_row s t0 nc nr st r) = user r /\
  project (updated_row s t0 nc nr st r) = project r /\
  starttime (updated_row s t0 nc nr st r) = starttime r.
Proof.
  unfold updated_row, is_running.
  destruct r as [? ? ? ? ? ? ? []], t0, (truthy nc); simpl; auto.
Qed.

Lemma updated_row_untimed s nc nr st r :
  truthy nc = false ->
  endtime (updated_row s None nc nr st r) = endtime r /\
  runtime (updated_row s None nc nr st r) = runtime r /\
  runs (updated_row s None nc nr st r) = runs r.
Proof.
  intros Hnc. unfold updated_row, is_running. rewrite Hnc.
  destruct r as [? ? ? ? ? ? ? []]; simpl; auto.
Qed.

Lemma updateRunLog_found p t0 nc nr st s i r :
  list_find (fun x => pid x = p) (run_logs (fs s) (ledger s)) = Some (i, r) ->
  _updateRunLog p t0 nc nr st s =
  (Ok (status (updated_row s t0 nc nr st r)),
   with_ledger (<[i := updated_row s t0 nc nr st r]>
                  (run_logs (fs s) (ledger s))) s).
Proof.
  intros E. unfold _updateRunLog, bind, get. rewrite E. reflexivity.
Qed.

Lemma updateRunLog_missing p t0 nc nr st s :
  list_find (fun x => pid x = p) (ledger s) = None ->
  _updateRunLog p t0 nc nr st s = (Raise (update_error p st), s).
Proof.
  intros E. unfold _updateRunLog, bind, get.
  pose proof (list_find_same p _ _ (run_logs_same (fs s) (ledger s))) as H.
  rewrite E in H. rewrite H. reflexivity.
Qed.

(** Either way, the rows of the log stay where they are. *)
Lemma updateRunLog_rows p t0 nc nr st s :
  let s' := snd (_updateRunLog p t0 nc nr st s) in
  forall i r, ledger s !! i = Some r ->
    exists r1, run_logs (fs s) (ledger s) !! i = Some r1 /\
               same_but_runs r r1 /\
               ledger s' !! i =
               Some (if decide (fst <$> list_find (fun x => pid x = p)
                                          (ledger s) = Some i)
                     then updated_row s t0 nc nr st r1
                     else match list_find (fun x => pid x = p) (ledger s) with
                          | Some _ => r1
                          | None => r
                          end).
Proof.
  intros s' i r Hi. subst s'.
  pose proof (run_logs_same (fs s) (ledger s)) as Hsame.
  destruct (Forall2_lookup_l _ _ _ _ _ Hsame Hi) as (r1 & Hr1 & Hrr1).
  exists r1. split; [assumption|]. split; [assumption|].
  pose proof (list_find_same p _ _ Hsame) as Hfind.
  destruct (list_find _ (ledger s)) as [[j x]|] eqn:E.
  - destruct Hfind as (x' & Ex' & _).
    rewrite (updateRunLog_found _ _ _ _ _ _ _ _ Ex'). simpl.
    apply list_find_Some in Ex' as (Hj & _).
    destruct (decide (Some j = Some i)) as [Hji|Hji].
    + inversion Hji; subst. rewrite Hr1 in Hj. inversion Hj; subst.
      apply list_lookup_insert_eq. eapply lookup_lt_Some; eauto.
    + rewrite list_lookup_insert_ne; [assumption|congruence].
  - rewrite (updateRunLog_missing _ _ _ _ _ _ E). simpl.
    destruct (decide (None = Some i)); [discriminate|assumption].
Qed.

Lemma run_logs_runs F (L : list Row) i r r1 :
  L !! i = Some r -> run_logs F L !! i = Some r1 ->
  runs r1 = runs r \/
  exists q, q ∈ L /\ status q = Running /\ pid q = pid r.
Proof.
  intros Hi H1.
  destruct (decide (Exists (fun q => status q = Running /\ pid q = pid r) L))
    as [Hex|Hno].
  - right. apply Exists_exists in Hex as (q & Hq & ? & ?). eauto.
  - left. rewrite (run_logs_other F L i r Hi) in H1.
    + congruence.
    + intros q Hq Hrun Hp. apply Hno. apply Exists_exists. eauto.
Qed.

(** ** Sessions *)

(** Symbolic execution of a computation on a state given by its fields:
    [run_monad] steps through the monad, [exec] also through the session
    code. *)
Ltac run_monad :=
  cbv beta iota zeta delta
    [bind ret raise get modify emit getattr get_argument try_except
     try_except_else try_finally lift step call
     with_ledger with_fs with_procs with_outstanding with_channel_open
     with_trace with_startTime with_user with_project with_pid
     with_marxanProcess with_numRunsRequired with_pc with_clientSentFinalMsg
     ledger fs procs clock outstanding channel_open trace req_user
     req_project req_uri self_startTime self_user self_project self_pid
     self_marxanProcess self_numRunsRequired self_pc
     self_clientSentFinalMsg peer_leaves project_data_error auth_denied
     untraced frame_empty negb fst snd].

Ltac exec :=
  cbv beta iota zeta delta
    [bind ret raise get modify emit getattr get_argument try_except
     try_except_else try_finally lift step call
     send_response close close_with write_message super_close
     with_ledger with_fs with_procs with_outstanding with_channel_open
     with_trace with_startTime with_user with_project with_pid
     with_marxanProcess with_numRunsRequired with_pc with_clientSentFinalMsg
     ledger fs procs clock outstanding channel_open trace req_user
     req_project req_uri self_startTime self_user self_project self_pid
     self_marxanProcess self_numRunsRequired self_pc
     self_clientSentFinalMsg peer_leaves project_data_error auth_denied
     untraced frame_empty negb fst snd].

Lemma frames_app a b : frames (a ++ b) = frames a ++ frames b.
Proof. apply omap_app. Qed.

Lemma enriched_status s t0 m :
  m !! "status" = Some "Finished" ->
  enriched s t0 m !! "status" = Some "Finished".
Proof.
  intros H. unfold enriched.
  destruct (self_marxanProcess s), (self_pid s), (req_user s);
    repeat (rewrite lookup_insert_ne by discriminate); assumption.
Qed.

Lemma call_finalized c s :
  finalized s ->
  fst (call c s) = Ok tt /\
  untraced (snd (call c s)) = untraced s /\
  frames (trace (snd (call c s))) = frames (trace s) /\
  finalized (snd (call c s)).
Proof.
  intros (Hch & Hfl & [t0 Ht0] & Hpc).
  destruct s; simpl in *; subst.
  destruct c as [m|m [|]]; exec.
  - destruct self_pc0 as [[|]|]; try congruence; exec;
      rewrite !frames_app; simpl; rewrite !app_nil_r;
      repeat split; eauto; discriminate.
  - destruct self_pc0 as [[|]|]; try congruence; exec;
      destruct (_ !! "error"); exec;
      rewrite !frames_app; simpl; rewrite !app_nil_r;
      repeat split; eauto; discriminate.
  - destruct self_pc0 as [[|]|]; try congruence; exec;
      repeat split; eauto; discriminate.
Qed.

Lemma calls_finalized cs : forall s,
  finalized s ->
  fst (calls cs s) = true /\
  untraced (snd (calls cs s)) = untraced s /\
  frames (trace (snd (calls cs s))) = frames (trace s).
Proof.
  induction cs as [|c cs IH]; intros s Hs; simpl; [auto|].
  destruct (call_finalized c s Hs) as (Hok & Hun & Hfr & Hfin).
  destruct (call c s) as [[[]|e] s1]; simpl in *; try discriminate.
  destruct (IH s1 Hfin) as (? & ? & ?).
  repeat split; congruence.
Qed.

(** A clean close on an open channel delivers one frame and leaves the
    session finalized. *)
Lemma close_clean_open s t0 msg :
  self_startTime s = Some t0 -> channel_open s = true ->
  fst (close msg true s) = Ok tt /\
  frames (trace (snd (close msg true s))) =
    frames (trace s) ++ [enriched s t0 (<["status" := "Finished"]> msg)] /\
  finalized (snd (close msg true s)).
Proof.
  intros Ht Hch. destruct s; simpl in *; subst.
  unfold enriched, elapsed, finalized. exec.
  destruct self_pc0 as [[|]|]; exec; destruct (_ !! "error"); exec;
    rewrite !frames_app; simpl; rewrite !app_nil_r;
    repeat split; eauto; discriminate.
Qed.

(** ** Computations that leave a part of the state alone

    [view] selects the part, [ok] the events that may be added to the
    trace. *)

Section Keeps.

Context {V : Type} (view : Server -> V) (ok : Event -> Prop).

Local Abbreviation stays := (stays view ok).
Local Abbreviation keeps := (keeps view ok).

Lemma stays_refl s : stays s s.
Proof. split; [reflexivity|]. exists []. rewrite app_nil_r. auto. Qed.

Lemma stays_trans a b c : stays a b -> stays b c -> stays a c.
Proof.
  intros (Hv1 & n1 & Ht1 & Hf1) (Hv2 & n2 & Ht2 & Hf2).
  split; [congruence|]. exists (n1 ++ n2).
  rewrite Ht2, Ht1, app_assoc. split; [reflexivity|].
  apply Forall_app; auto.
Qed.

Lemma keeps_ret {A} (a : A) : keeps (ret a).
Proof. intros s. apply stays_refl. Qed.

Lemma keeps_raise {A} e : keeps (@raise A e).
Proof. intros s. apply stays_refl. Qed.

Lemma keeps_get : keeps get.
Proof. intros s. apply stays_refl. Qed.

Lemma keeps_getattr {A} name (f : Server -> option A) :
  keeps (getattr name f).
Proof. intros s. unfold getattr. destruct (f s); apply stays_refl. Qed.

Lemma keeps_get_argument name f : keeps (get_argument name f).
Proof. intros s. unfold get_argument. destruct (f s); apply stays_refl. Qed.

Lemma keeps_lift {A} (r : Res A) : keeps (lift r).
Proof. destruct r; [apply keeps_ret | apply keeps_raise]. Qed.

Lemma keeps_step o : keeps (step o).
Proof. destruct o; [apply keeps_raise | apply keeps_ret]. Qed.

Lemma keeps_bind {A B} (m : M A) (k : A -> M B) :
  keeps m -> (forall a, keeps (k a)) -> keeps (bind m k).
Proof.
  intros Hm Hk s. unfold bind. specialize (Hm s).
  destruct (m s) as [[a|e] s1]; simpl in *; [|assumption].
  eapply stays_trans; [eassumption | apply Hk].
Qed.

Lemma keeps_try_except {A} (m : M A) h :
  keeps m ->
  (forall e, match h e with Some k => keeps k | None => True end) ->
  keeps (try_except m h).
Proof.
  intros Hm Hh s. unfold try_except. specialize (Hm s).
  destruct (m s) as [[a|e] s1]; simpl in *; [assumption|].
  specialize (Hh e). destruct (h e) as [k|]; [|assumption].
  eapply stays_trans; [eassumption | apply Hh].
Qed.

Lemma keeps_try_except_else {A B} (m : M A) h (k : A -> M B) :
  keeps m ->
  (forall e, match h e with Some r => keeps r | None => True end) ->
  (forall a, keeps (k a)) ->
  keeps (try_except_else m h k).
Proof.
  intros Hm Hh Hk s. unfold try_except_else. specialize (Hm s).
  destruct (m s) as [[a|e] s1]; simpl in *.
  - eapply stays_trans; [eassumption | apply Hk].
  - specialize (Hh e). destruct (h e) as [r|]; [|assumption].
    eapply stays_trans; [eassumption | apply Hh].
Qed.

Lemma keeps_try_finally {A} (m : M A) f :
  keeps m -> keeps f -> keeps (try_finally m f).
Proof.
  intros Hm Hf s. unfold try_finally. specialize (Hm s).
  destruct (m s) as [r s1]. specialize (Hf s1).
  destruct (f s1) as [[u|e] s2]; simpl in *;
    eapply stays_trans; eassumption.
Qed.

Lemma keeps_for_each {A} (l : list A) body :
  (forall x, keeps (body x)) -> keeps (for_each l body).
Proof.
  intros Hb. induction l as [|x l IH]; simpl.
  - apply keeps_ret.
  - apply keeps_bind; auto.
Qed.

Lemma keeps_modify f :
  (forall s, view (f s) = view s) -> (forall s, trace (f s) = trace s) ->
  keeps (modify f).
Proof.
  intros Hv Ht s. simpl. split; [apply Hv|].
  exists []. rewrite app_nil_r. auto.
Qed.

Lemma keeps_emit e :
  ok e -> (forall t s, view (with_trace t s) = view s) -> keeps (emit e).
Proof.
  intros He Hv s. simpl. split; [apply Hv|].
  exists [e]. auto.
Qed.

(** An event, whatever it is, followed by a computation that keeps the
    view. *)
Lemma keeps_after_emit {A} e (k : unit -> M A) s :
  (forall t s, view (with_trace t s) = view s) ->
  (forall u, keeps (k u)) ->
  let s' := snd (bind (emit e) k s) in
  view s' = view s /\
  exists rest, trace s' = trace s ++ e :: rest /\ Forall ok rest.
Proof.
  intros Hv Hk. unfold bind, emit, modify. simpl.
  destruct (Hk tt (with_trace (trace s ++ [e]) s)) as (Hv1 & rest & Ht & Hr).
  split.
  - rewrite Hv1. apply Hv.
  - exists rest. rewrite Ht. destruct s; simpl.
    rewrite <- app_assoc. auto.
Qed.

End Keeps.

(** Steps that cannot change the state. *)
Lemma bind_step {A} o (k : unit -> M A) s :
  bind (step o) k s =
  match o with
  | Some e => (Raise e, s)
  | None => k tt s
  end.
Proof. destruct o; reflexivity. Qed.

Lemma bind_lift {A B} (r : Res A) (k : A -> M B) s :
  bind (lift r) k s =
  match r with
  | Ok a => k a s
  | Raise e => (Raise e, s)
  end.
Proof. destruct r; reflexivity. Qed.

Ltac keeps_prim :=
  first
    [ apply keeps_modify; [intros []; reflexivity | intros []; reflexivity]
    | apply keeps_emit; [simpl; auto | intros ? []; reflexivity] ].

Ltac keeps_with extra :=
  cbv zeta;
  repeat first
    [ exact I
    | extra
    | apply keeps_ret | apply keeps_raise | apply keeps_get
    | apply keeps_getattr | apply keeps_get_argument | apply keeps_lift
    | apply keeps_step
    | apply keeps_bind; [|intros ?]
    | apply keeps_try_except; [|intros []; cbv beta iota]
    | apply keeps_try_except_else; [|intros []; cbv beta iota|intros ?]
    | apply keeps_try_finally
    | apply keeps_for_each; intros ?
    | keeps_prim
    | match goal with
      | |- keeps _ _ (match ?x with _ => _ end) => destruct x
      | |- match (match ?x with _ => _ end) with _ => _ end => destruct x
      | |- match (if ?x then _ else _) with _ => _ end => destruct x
      end ].

Ltac keeps_go := keeps_with fail.

(** The session code touches the channel, the timer and the final flag,
    and adds calls, frames and warnings to the trace. *)
Section SessionKeeps.

Context {V : Type} (view : Server -> V) (ok : Event -> Prop).
Hypothesis view_pc : forall v s, view (with_pc v s) = view s.
Hypothesis view_flag :
  forall v s, view (with_clientSentFinalMsg v s) = view s.
Hypothesis view_channel : forall v s, view (with_channel_open v s) = view s.
Hypothesis view_trace : forall t s, view (with_trace t s) = view s.
Hypothesis ok_response : forall m, ok (EvSendResponse m).
Hypothesis ok_write : forall m, ok (EvWrite m).
Hypothesis ok_warning : forall t, ok (EvWarning t).

Lemma keeps_close_with send msg clean :
  (forall m, keeps view ok (send m)) ->
  keeps view ok (close_with send msg clean).
Proof.
  intros Hsend. unfold close_with, super_close.
  keeps_go; try apply Hsend;
    try (apply keeps_modify; [auto | intros []; reflexivity]);
    try (apply keeps_emit; auto).
Qed.

Lemma keeps_send_response m : keeps view ok (send_response m).
Proof.
  unfold send_response, write_message.
  keeps_go;
    try (apply keeps_modify; [auto | intros []; reflexivity]);
    try (apply keeps_emit; auto).
Qed.

Lemma keeps_close msg clean : keeps view ok (close msg clean).
Proof. apply keeps_close_with, keeps_send_response. Qed.

Hypothesis view_startTime : forall v s, view (with_startTime v s) = view s.
Hypothesis view_user : forall v s, view (with_user v s) = view s.
Hypothesis view_project : forall v s, view (with_project v s) = view s.

Lemma keeps_open env msg :
  keeps view ok (MarxanWebSocketHandler_open env msg).
Proof.
  unfold MarxanWebSocketHandler_open, _setFolderPaths.
  keeps_with ltac:(first [apply keeps_send_response | apply keeps_close]);
    try (apply keeps_modify; [intros; auto | intros []; reflexivity]).
Qed.

End SessionKeeps.

Ltac session_view :=
  first [ intros ? []; reflexivity | intros; exact I ].

(** ** The connection pool *)

Lemma pool_send_response m : keeps outstanding not_pool (send_response m).
Proof.
  apply keeps_send_response; try (intros ? []; reflexivity);
    intros; exact I.
Qed.

Lemma pool_close m b : keeps outstanding not_pool (close m b).
Proof.
  apply keeps_close; try (intros ? []; reflexivity); intros; exact I.
Qed.

Lemma pool_execute_body env sql data fmt sh c :
  keeps outstanding not_pool (execute_body env sql data fmt sh c).
Proof.
  unfold execute_body, publish_pid, run_query, fetch_records.
  keeps_with ltac:(apply pool_send_response).
Qed.

Lemma pool_acquire_failed e :
  match acquire_failed e with
  | Some k => keeps outstanding not_pool k
  | None => True
  end.
Proof. destruct e; simpl; keeps_go. Qed.

(** C4. Every call of [PostGIS.execute], however it ends, leaves the number
    of outstanding connections of the pool as it found it.  If
    [pool.acquire()] returned a connection, the events of the call are the
    acquisition, events that do not concern the pool, and one release of
    that same connection as the last event; if it raised, the pool sees no
    event at all. *)
Theorem execute_releases_connection env sql data fmt sh s :
  let s' := snd (execute env sql data fmt sh s) in
  outstanding s' = outstanding s /\
  exists new, trace s' = trace s ++ new /\
    match db_acquire env with
    | Ok c => exists mid,
        new = EvAcquire c :: mid ++ [EvRelease c] /\ Forall not_pool mid
    | Raise _ => Forall not_pool new
    end.
Proof.
  unfold execute, try_finally, try_except_else, pool_acquire.
  destruct (db_acquire env) as [c|e] eqn:E; cbv zeta.
  - unfold lift, bind, ret, modify, emit. simpl.
    set (s1 := with_trace _ _).
    destruct (pool_execute_body env sql data fmt sh c s1)
      as (Hout & mid & Htr & Hmid).
    destruct (execute_body env sql data fmt sh c s1) as [r s2].
    simpl in *. unfold pool_release, bind, modify, emit. simpl.
    split.
    + rewrite Hout. subst s1. destruct s; simpl. lia.
    + exists (EvAcquire c :: mid ++ [EvRelease c]). split.
      * rewrite Htr. subst s1. destruct s; simpl.
        rewrite <- !app_assoc. reflexivity.
      * eauto.
  - unfold lift, bind, raise. simpl.
    pose proof (pool_acquire_failed e) as Hh.
    destruct (acquire_failed e) as [k|].
    + destruct (Hh s) as (Hout & new & Htr & Hnew).
      destruct (k s) as [r s1]. simpl in *. eauto.
    + simpl. split; [reflexivity|]. exists []. rewrite app_nil_r. auto.
Qed.

(** ** The order of publication and query *)

Lemma query_send_response m : keeps self_pid not_query (send_response m).
Proof.
  apply keeps_send_response; try (intros ? []; reflexivity);
    intros; exact I.
Qed.

Lemma send_response_trace m s :
  let s' := snd (send_response m s) in
  self_pid s' = self_pid s /\
  exists more, trace s' = trace s ++ EvSendResponse m :: more /\
               Forall not_query more.
Proof.
  unfold send_response. apply keeps_after_emit.
  - intros ? []; reflexivity.
  - intros _. unfold write_message.
    keeps_with ltac:(apply keeps_close_with; session_view).
Qed.

Lemma query_fetch_records env fmt :
  keeps self_pid not_query (fetch_records env fmt).
Proof. unfold fetch_records. keeps_go. Qed.

Lemma query_acquire_failed e :
  match acquire_failed e with
  | Some k => keeps self_pid not_query k
  | None => True
  end.
Proof. destruct e; simpl; keeps_go. Qed.

(** [run_query] enters [cur.execute] and does nothing else that shows. *)
Lemma run_query_trace env sql s :
  let s' := snd (run_query env sql s) in
  self_pid s' = self_pid s /\ trace s' = trace s ++ [EvExecute sql].
Proof.
  unfold run_query. destruct s.
  destruct (db_execute env) as [[]|]; split; reflexivity.
Qed.

Lemma published_refl c s : published c s s.
Proof. exists []. rewrite app_nil_r. auto. Qed.

(** [publish_pid] is stopped by [get_backend_pid], or reads the backend
    pid, sets it on the handler and sends it. *)
Lemma publish_pid_trace env c s :
  let s' := snd (publish_pid env c s) in
  (exists e, publish_pid env c s = (Raise e, s)) \/
  (self_pid s' = Some ("q" +:+ py_str c) /\
   exists more,
     trace s' = trace s ++
                EvBackendPid c :: EvSendResponse (pid_message c) :: more /\
     Forall not_query more).
Proof.
  destruct (db_backend_pid env) as [e|] eqn:E.
  - left. exists e. unfold publish_pid. rewrite E. reflexivity.
  - right.
    assert (Heq : publish_pid env c s =
                  send_response (pid_message c)
                    (with_pid (Some ("q" +:+ py_str c))
                       (with_trace (trace s ++ [EvBackendPid c]) s)))
      by (unfold publish_pid; rewrite E; reflexivity).
    rewrite Heq.
    destruct (send_response_trace (pid_message c)
                (with_pid (Some ("q" +:+ py_str c))
                   (with_trace (trace s ++ [EvBackendPid c]) s)))
      as (Hp & more & Ht & Hm).
    split.
    + rewrite Hp. destruct s; reflexivity.
    + exists more. rewrite Ht. destruct s; simpl.
      rewrite <- app_assoc. auto.
Qed.

(** From the publication on. *)
Lemma published_tail env fmt c sql s :
  published c s
    (snd (bind (publish_pid env c)
            (fun _ => bind (run_query env sql)
                        (fun _ => fetch_records env fmt)) s)).
Proof.
  unfold bind at 1.
  destruct (publish_pid_trace env c s)
    as [[e ->] | (Hp & more & Ht & Hm)]; [apply published_refl|].
  destruct (publish_pid env c s) as [[[]|e] s1]; simpl in Hp, Ht; simpl.
  - destruct (run_query_trace env sql s1) as (Hq & Htq).
    unfold bind.
    destruct (run_query env sql s1) as [[[]|e] s2]; simpl in Hq, Htq.
    + destruct (query_fetch_records env fmt s2) as (Hf & rest & Htf & Hr).
      destruct (fetch_records env fmt s2) as [r s3]. simpl in *.
      exists (EvBackendPid c :: EvSendResponse (pid_message c) ::
              more ++ EvExecute sql :: rest).
      split.
      * rewrite Htf, Htq, Ht, <- !app_assoc. reflexivity.
      * right. exists more, sql, rest. repeat split; auto. congruence.
    + simpl.
      exists (EvBackendPid c :: EvSendResponse (pid_message c) ::
              more ++ EvExecute sql :: []).
      split.
      * rewrite Htq, Ht, <- !app_assoc. reflexivity.
      * right. exists more, sql, []. repeat split; auto. congruence.
  - exists (EvBackendPid c :: EvSendResponse (pid_message c) :: more).
    split; [assumption|]. left. repeat constructor; auto.
Qed.

(** With a handler attached, the body of [execute] either never reaches
    [cur.execute], or has asked for the backend pid and sent it before. *)
Lemma execute_body_shape env sql data fmt c s :
  published c s (snd (execute_body env sql data fmt true c s)).
Proof.
  unfold execute_body. rewrite bind_step.
  destruct (db_cursor env); [apply published_refl|].
  destruct data as [d|].
  - rewrite bind_lift. destruct (db_mogrify env); [|apply published_refl].
    rewrite bind_step. destruct (db_debug env); [apply published_refl|].
    apply published_tail.
  - unfold bind at 1, ret. rewrite bind_step.
    destruct (db_debug env); [apply published_refl|].
    apply published_tail.
Qed.

Lemma no_query_split l pre q post :
  Forall not_query l -> l <> pre ++ EvExecute q :: post.
Proof.
  intros Hl ->. apply Forall_app in Hl as [_ Hl].
  inversion Hl as [|? ? Hq]. exact Hq.
Qed.

Lemma query_split_unique l1 : forall x l2 pre q post,
  Forall not_query l1 -> Forall not_query l2 ->
  l1 ++ EvExecute x :: l2 = pre ++ EvExecute q :: post -> pre = l1.
Proof.
  induction l1 as [|e l1 IH]; intros x l2 pre q post H1 H2 Heq.
  - destruct pre as [|e' pre]; [reflexivity|].
    simpl in Heq. inversion Heq; subst.
    exfalso. exact (no_query_split _ pre q post H2 eq_refl).
  - inversion H1; subst. destruct pre as [|e' pre]; simpl in Heq.
    + inversion Heq; subst. contradiction.
    + inversion Heq; subst. f_equal. exact (IH _ _ _ _ _ H4 H2 H5).
Qed.

(** C7. When [execute] is called with a handler, every entry into
    [cur.execute] is preceded, within the same call, by the reading of the
    backend pid of the connection and by the [send_response] of that pid
    prefixed with [q], in this order; the handler keeps the tagged pid in
    its [pid] attribute. *)
Theorem execute_publishes_pid_before_query env sql data fmt s :
  let s' := snd (execute env sql data fmt true s) in
  exists new, trace s' = trace s ++ new /\
    forall pre q post, new = pre ++ EvExecute q :: post ->
      exists c a b,
        db_acquire env = Ok c /\
        pre = a ++ EvBackendPid c :: EvSendResponse (pid_message c) :: b /\
        self_pid s' = Some ("q" +:+ py_str c).
Proof.
  unfold execute, try_finally, try_except_else, pool_acquire.
  destruct (db_acquire env) as [c|e] eqn:E; cbv zeta.
  - unfold lift, bind, ret, modify, emit. simpl.
    set (s1 := with_trace _ _).
    destruct (execute_body_shape env sql data fmt c s1)
      as (new & Htr & Hnew).
    destruct (execute_body env sql data fmt true c s1) as [r s2].
    simpl in *. unfold pool_release, bind, modify, emit. simpl.
    exists (EvAcquire c :: new ++ [EvRelease c]). split.
    + rewrite Htr. subst s1. destruct s; simpl.
      rewrite <- !app_assoc. reflexivity.
    + intros pre q post Heq.
      destruct Hnew as [Hnone | (more & q0 & rest & -> & Hm & Hr & Hpid)].
      * exfalso. eapply (no_query_split (EvAcquire c :: new ++ [EvRelease c]));
          [|exact Heq].
        constructor; [exact I|]. apply Forall_app. split; auto.
        repeat constructor.
      * exists c, [EvAcquire c], more. repeat split; auto.
        simpl.
        apply (query_split_unique
                 (EvAcquire c :: EvBackendPid c ::
                  EvSendResponse (pid_message c) :: more)
                 q0 (rest ++ [EvRelease c]) pre q post).
        -- repeat constructor; auto.
        -- apply Forall_app. split; auto. repeat constructor.
        -- rewrite <- Heq. simpl. rewrite <- !app_assoc. reflexivity.
  - unfold lift, bind, raise. simpl.
    pose proof (query_acquire_failed e) as Hh.
    assert (Hkeep : exists new,
              trace (snd (match acquire_failed e with
                          | Some r => r s
                          | None => (Raise e, s)
                          end)) = trace s ++ new /\ Forall not_query new).
    { destruct (acquire_failed e) as [k|].
      - destruct (Hh s) as (_ & new & Htr & Hnew). eauto.
      - exists []. simpl. rewrite app_nil_r. auto. }
    destruct Hkeep as (new & Htr & Hnew).
    destruct (match acquire_failed e with
              | Some r => r s
              | None => (Raise e, s)
              end) as [r s1].
    simpl in *. exists new. split; [assumption|].
    intros pre q post Heq. exfalso. eapply no_query_split; eauto.
Qed.

Lemma responses_app a b : responses (a ++ b) = responses a ++ responses b.
Proof. apply omap_app. Qed.

(** A clean close of a session whose [open] has returned: the handler
    returns, and has called [send_response] once, with the closing
    message. *)
Lemma close_clean_responses s msg :
  is_Some (self_startTime s) -> is_Some (self_clientSentFinalMsg s) ->
  let s' := snd (close msg true s) in
  fst (close msg true s) = Ok tt /\
  responses (trace s') =
    responses (trace s) ++ [<["status" := "Finished"]> msg] /\
  ledger s' = ledger s /\ fs s' = fs s /\ procs s' = procs s.
Proof.
  intros [t0 Ht] [b Hb]. destruct s; simpl in *; subst.
  destruct channel_open0, self_pc0 as [[|]|], b; exec;
    destruct (_ !! "error"); exec;
    rewrite ?responses_app; simpl; rewrite ?app_nil_r;
    repeat split; reflexivity.
Qed.

(** C5. After a clean [close] on an open channel has delivered its
    [Finished] frame, whatever [send_response] and [close] calls follow all
    return, deliver no frame and leave every attribute of the session as
    the first close left it: in total exactly one [Finished] frame has been
    added. *)
Theorem close_is_idempotent s t0 msg cs :
  self_startTime s = Some t0 -> channel_open s = true ->
  let s1 := snd (close msg true s) in
  let s2 := snd (calls cs s1) in
  frames (trace s1) =
    frames (trace s) ++ [enriched s t0 (<["status" := "Finished"]> msg)] /\
  fst (calls cs s1) = true /\
  frames (trace s2) = frames (trace s1) /\
  untraced s2 = untraced s1 /\
  length (List.filter is_finished (frames (trace s2))) =
    S (length (List.filter is_finished (frames (trace s)))).
Proof.
  intros Ht Hch s1 s2.
  destruct (close_clean_open s t0 msg Ht Hch) as (_ & Hfr & Hfin).
  destruct (calls_finalized cs _ Hfin) as (Hok & Hun & Hfr2).
  fold s1 in Hfr, Hfin, Hok, Hun, Hfr2. fold s2 in Hun, Hfr2.
  repeat split; auto.
  rewrite Hfr2, Hfr, List.filter_app, length_app. simpl.
  unfold is_finished at 2.
  rewrite bool_decide_eq_true_2.
  - simpl. lia.
  - apply enriched_status. apply lookup_insert_eq.
Qed.

(** C9, what the code does.  If the channel is closed before [open] has
    initialised [clientSentFinalMsg], [send_response] does not return: the
    [close(clean=False)] of its [except] clause reads the missing
    attribute. *)
Theorem send_response_before_flag_raises s t0 m :
  channel_open s = false -> self_startTime s = Some t0 ->
  self_clientSentFinalMsg s = None ->
  fst (send_response m s) = Raise (AttributeError "clientSentFinalMsg").
Proof.
  intros Hch Ht Hfl. destruct s; simpl in *; subst.
  destruct self_pc0 as [[|]|]; exec; reflexivity.
Qed.

(** Once [open] has set the flag, a closed channel makes [send_response]
    return without delivering anything. *)
Lemma send_response_closed_returns s m :
  channel_open s = false -> is_Some (self_startTime s) ->
  is_Some (self_clientSentFinalMsg s) ->
  fst (send_response m s) = Ok tt /\
  frames (trace (snd (send_response m s))) = frames (trace s).
Proof.
  intros Hch [t0 Ht] [b Hb]. destruct s; simpl in *; subst.
  destruct self_pc0 as [[|]|], b; exec;
    rewrite !frames_app; simpl; rewrite ?app_nil_r; auto.
Qed.

(** ** The exit callback *)

Ltac use_close :=
  match goal with
  | |- context [close ?m true ?S] =>
      let H := fresh "Hclose" in
      assert (H : is_Some (self_startTime S) /\
                  is_Some (self_clientSentFinalMsg S)) by (simpl; eauto);
      destruct H as [? ?];
      destruct (close_clean_responses S m) as (? & ? & ? & ? & ?);
      [assumption | assumption |];
      destruct (close m true S) as [? ?]; simpl in *; subst
  end.


Lemma finishOutput_missing s mp u p required t0 :
  job_session s mp u p required t0 -> u <> "_clumping" ->
  list_find (fun x => pid x = mp) (ledger s) = None ->
  let n := _getNumberOfRunsCompleted (fs s) (folder_output_for u p) in
  let s' := snd (finishOutput s) in
  fst (finishOutput s) = Ok tt /\
  ledger s' = ledger s /\
  responses (trace s') =
    responses (trace s) ++
    [<["status" := "Finished"]>
       (<["error" := "Unable to update run log for pid " +:+ py_str mp +:+
                     " with status " +:+
                     status_text (if n =? required then Completed
                                  else Killed)]> ∅)].
Proof.
  intros (Hmp & Hu & Hp & Hreq & Ht & [b Hb]) Hne E.
  apply String.eqb_neq in Hne.
  destruct s; simpl in *; subst.
  unfold finishOutput, folder_output. run_monad. rewrite Hne. run_monad.
  destruct (_ =? required) eqn:En; run_monad;
    (erewrite updateRunLog_missing by (simpl; exact E));
    unfold update_error; run_monad; use_close; auto.
Qed.

(** ** The run log under updates *)



(** C8. An update for a pid that no row of the run log carries raises the
    error that names the pid and the status and leaves the state as it
    is; the exit callback catches it, returns normally and closes its
    session with that error as the closing message. *)
Theorem missing_row_is_reported :
  (forall p t0 nc nr st s,
     list_find (fun x => pid x = p) (ledger s) = None ->
     _updateRunLog p t0 nc nr st s =
     (Raise (MarxanServicesError
               ("Unable to update run log for pid " +:+ py_str p +:+
                " with status " +:+ status_text st)), s)) /\
  (forall s mp u p required t0,
     job_session s mp u p required t0 -> u <> "_clumping" ->
     list_find (fun x => pid x = mp) (ledger s) = None ->
     let n := _getNumberOfRunsCompleted (fs s) (folder_output_for u p) in
     let s' := snd (finishOutput s) in
     fst (finishOutput s) = Ok tt /\
     ledger s' = ledger s /\
     responses (trace s') =
       responses (trace s) ++
       [<["status" := "Finished"]>
          (<["error" := "Unable to update run log for pid " +:+ py_str mp +:+
                        " with status " +:+
                        status_text (if n =? required then Completed
                                     else Killed)]> ∅)]).
Proof.
  split.
  - intros p t0 nc nr st s E.
    exact (updateRunLog_missing p t0 nc nr st s E).
  - intros s mp u p required t0 Hjob Hu E.
    exact (finishOutput_missing s mp u p required t0 Hjob Hu E).
Qed.

(** C10, amended.  An update never moves, adds or removes a row and never
    changes the pid, user, project or start time of one; only the first
    row with the given pid can change its status, and only from
    [Running].  For every row other than that one, and for that one too
    when the update is made without start time and without count of
    completed runs, end time and runtime are unchanged, and [runs] can
    differ only for a row whose pid is carried by a [Running] row, whose
    completed runs [_getRunLogs] recounts. *)
Theorem update_changes_only_status_and_recount p t0 nc nr st s :
  let s' := snd (_updateRunLog p t0 nc nr st s) in
  let matching i :=
    fst <$> list_find (fun x => pid x = p) (ledger s) = Some i in
  length (ledger s') = length (ledger s) /\
  forall i r, ledger s !! i = Some r ->
    exists r', ledger s' !! i = Some r' /\
      pid r' = pid r /\ user r' = user r /\ project r' = project r /\
      starttime r' = starttime r /\
      (status r' = status r \/
       matching i /\ status r = Running /\ status r' = st) /\
      (~ matching i \/ (t0 = None /\ truthy nc = false) ->
       endtime r' = endtime r /\ runtime r' = runtime r /\
       (runs r' = runs r \/
        exists q, q ∈ ledger s /\ status q = Running /\ pid q = pid r)).
Proof.
  intros s' matching. split.
  - subst s'.
    pose proof (run_logs_same (fs s) (ledger s)) as Hsame.
    pose proof (list_find_same p _ _ Hsame) as Hfind.
    destruct (list_find _ (ledger s)) as [[j x]|] eqn:E.
    + destruct Hfind as (x' & Ex' & _).
      rewrite (updateRunLog_found _ _ _ _ _ _ _ _ Ex'). simpl.
      rewrite length_insert. symmetry. eapply Forall2_length; eauto.
    + rewrite (updateRunLog_missing _ _ _ _ _ _ E). reflexivity.
  - intros i r Hi.
    destruct (updateRunLog_rows p t0 nc nr st s i r Hi)
      as (r1 & Hr1 & Hsame & Hr').
    fold s' in Hr'. eexists. split; [exact Hr'|].
    pose proof (run_logs_runs _ _ _ _ _ Hi Hr1) as Hruns.
    destruct Hsame as (Hp & Hu & Hpr & Hs & He & Ht & Hst).
    fold (matching i).
    destruct (decide (matching i)) as [Hm|Hm].
    + destruct (updated_row_ids s t0 nc nr st r1) as (-> & -> & -> & ->).
      refine (conj Hp (conj Hu (conj Hpr (conj Hs (conj _ _))))).
      * rewrite updated_row_status. destruct (is_running r1) eqn:Er.
        -- right. apply is_running_true in Er. split; [assumption|].
           split; congruence.
        -- left. assumption.
      * intros [H|[-> Hnc]]; [contradiction|].
        destruct (updated_row_untimed s nc nr st r1 Hnc) as (-> & -> & ->).
        auto.
    + assert (Hout : forall X : Row,
                (match list_find (fun x => pid x = p) (ledger s) with
                 | Some _ => r1
                 | None => r
                 end) = X -> X = r1 \/ X = r).
      { intros X <-. destruct (list_find _ (ledger s)); auto. }
      destruct (Hout _ eq_refl) as [->| ->].
      * repeat split; auto.
      * repeat split; auto.
Qed.

(** ** Stopping a job *)



(** ** Starting a job *)


Lemma world_close msg b : keeps world quiet (close msg b).
Proof. apply keeps_close; session_view. Qed.










Lemma appended_logged s s1 s2 :
  appended s s1 -> ledger s2 = ledger s1 -> appended s s2.
Proof. unfold appended. intros H ->. exact H. Qed.











(** * Further properties *)

(** ** Strings *)

Lemma append_cons x a t : String x a +:+ t = String x (a +:+ t).
Proof. reflexivity. Qed.

Lemma append_nil t : "" +:+ t = t.
Proof. reflexivity. Qed.

Lemma substring_all s : String.substring 0 (String.length s) s = s.
Proof. induction s as [|c s IH]; simpl; [reflexivity | now rewrite IH]. Qed.

Lemma substring_app_drop a t :
  String.substring (String.length a) (String.length t) (a +:+ t) = t.
Proof.
  induction a as [|x a IH]; rewrite ?append_cons, ?append_nil; simpl;
    [apply substring_all | assumption].
Qed.

Lemma length_app_string a t :
  String.length (a +:+ t) = (String.length a + String.length t)%nat.
Proof.
  induction a as [|c a IH]; rewrite ?append_cons, ?append_nil; simpl;
    [reflexivity | now rewrite IH].
Qed.

Lemma append_assoc_string a b c : (a +:+ b) +:+ c = a +:+ (b +:+ c).
Proof.
  induction a as [|x a IH]; rewrite ?append_cons, ?append_nil;
    [reflexivity | now rewrite IH].
Qed.


(** [(a + t)[len(a):]] *)
Lemma py_slice_from_app a t :
  py_slice_from (Z.of_nat (String.length a)) (a +:+ t) = t.
Proof.
  unfold py_slice_from, py_bound.
  destruct (Z.ltb_spec (Z.of_nat (String.length a)) 0); [lia|].
  rewrite Nat2Z.id, length_app_string.
  replace (Nat.min _ _) with (String.length a) by lia.
  replace (_ + _ - _)%nat with (String.length t) by lia.
  apply substring_app_drop.
Qed.

(** The first occurrence of a separator of one character. *)
Lemma index_sep c a t :
  String.index 0 (String c "") a = None ->
  String.index 0 (String c "") (a +:+ String c t) = Some (String.length a).
Proof.
  induction a as [|x a IH]; rewrite ?append_cons, ?append_nil; simpl.
  - intros _. destruct (Ascii.ascii_dec c c); [|congruence].
    destruct t; reflexivity.
  - destruct (Ascii.ascii_dec c x).
    + destruct a; discriminate.
    + destruct (String.index 0 (String c "") a); [discriminate|].
      intros _. rewrite IH; reflexivity.
Qed.

Lemma py_find_none sub s :
  py_find sub s = -1 -> String.index 0 sub s = None.
Proof.
  unfold py_find. destruct (String.index 0 sub s); [lia | reflexivity].
Qed.

Lemma py_find_sep c a t :
  py_find (String c "") a = -1 ->
  py_find (String c "") (a +:+ String c t) = Z.of_nat (String.length a).
Proof.
  intros H. unfold py_find. rewrite index_sep; [reflexivity|].
  now apply py_find_none.
Qed.

(** Its last occurrence. *)
Lemma rindex_none c a :
  rindex (String c "") a = None <-> String.index 0 (String c "") a = None.
Proof.
  induction a as [|x a IH]; [simpl; tauto|].
  cbn [rindex String.index String.prefix].
  destruct (Ascii.ascii_dec c x).
  - assert (E : String.prefix "" a = true) by (destruct a; reflexivity).
    rewrite E. destruct (rindex (String c "") a); split; discriminate.
  - destruct (rindex (String c "") a), (String.index 0 (String c "") a);
      split; try discriminate; try reflexivity; intros _.
    + destruct IH as [_ IH]. specialize (IH eq_refl). discriminate.
    + destruct IH as [IH _]. specialize (IH eq_refl). discriminate.
Qed.

Lemma rindex_sep c a t :
  rindex (String c "") t = None ->
  rindex (String c "") (a +:+ String c t) = Some (String.length a).
Proof.
  intros Ht.
  induction a as [|x a IH]; rewrite ?append_cons, ?append_nil; simpl.
  - rewrite Ht. destruct (Ascii.ascii_dec c c); [|congruence].
    destruct t; reflexivity.
  - rewrite IH. reflexivity.
Qed.


(** [(c + x)[:1]] and [(c + x)[1:]] *)
Lemma py_slice_tag c x :
  py_slice_to 1 (String c x) = String c "" /\ py_slice_from 1 (String c x) = x.
Proof.
  unfold py_slice_to, py_slice_from, py_bound. simpl.
  split; [destruct x; reflexivity|]. rewrite Nat.sub_0_r. apply substring_all.
Qed.

(** X1. The last line of a traceback has the form [<class>: <message>];
    [_getExceptionLastLine] returns the message, that is all that follows
    the first colon and the character after it.  A line without a colon
    loses its first character. *)
Theorem getExceptionLastLine_strips_class :
  (forall a m, py_find ":" a = -1 ->
     _getExceptionLastLine (a +:+ ": " +:+ m) = m) /\
  (forall c l, py_find ":" (String c l) = -1 ->
     _getExceptionLastLine (String c l) = l).
Proof.
  split.
  - intros a m H. unfold _getExceptionLastLine.
    change (a +:+ ": " +:+ m) with (a +:+ String ":" (" " +:+ m)).
    rewrite (py_find_sep ":"%char a (" " +:+ m) H).
    change (a +:+ String ":" (" " +:+ m)) with (a +:+ ": " +:+ m).
    replace (Z.of_nat (String.length a) + 2)
      with (Z.of_nat (String.length (a +:+ ": ")))
      by (rewrite length_app_string; simpl; lia).
    rewrite <- (append_assoc_string a ": " m).
    apply py_slice_from_app.
  - intros c l H. unfold _getExceptionLastLine. rewrite H.
    apply py_slice_tag.
Qed.

(** X2. [_getRESTMethod] returns what follows the last slash of the path,
    and the empty string for a path without a slash. *)
Theorem getRESTMethod_is_last_segment :
  (forall a m, py_find "/" m = -1 -> _getRESTMethod (a +:+ "/" +:+ m) = m) /\
  (forall path, py_find "/" path = -1 -> _getRESTMethod path = "").
Proof.
  split.
  - intros a m H. unfold _getRESTMethod, py_rfind.
    change (a +:+ "/" +:+ m) with (a +:+ String "/" m).
    rewrite (rindex_sep "/"%char a m).
    + cbv zeta.
      destruct (Z.gtb_spec (Z.of_nat (String.length a)) (-1)); [|lia].
      replace (Z.of_nat (String.length a) + 1)
        with (Z.of_nat (String.length (a +:+ "/")))
        by (rewrite length_app_string; simpl; lia).
      change (a +:+ String "/" m) with (a +:+ "/" +:+ m).
      rewrite <- (append_assoc_string a "/" m).
      apply py_slice_from_app.
    + now apply rindex_none, py_find_none.
  - intros path H. unfold _getRESTMethod, py_rfind.
    assert (E : rindex "/" path = None)
      by now apply rindex_none, py_find_none.
    rewrite E. reflexivity.
Qed.

(** ** Reading the run log *)








(** ** Clearing the run log *)


(** ** Opening and closing a session *)

(** On an open channel [send_response] delivers the enriched message and
    changes nothing but the trace. *)
Lemma send_response_open m s t0 :
  channel_open s = true -> self_startTime s = Some t0 ->
  send_response m s =
  (Ok tt, with_trace (trace s ++ [EvSendResponse m; EvWrite (enriched s t0 m)])
            s).
Proof.
  intros Hch Ht. destruct s; simpl in *; subst.
  unfold enriched, elapsed. exec. rewrite <- app_assoc. reflexivity.
Qed.

(** X7. A request that is authenticated and authorised, on a channel that
    stays open: [open] returns after two messages, [Started] with the
    start message and [Preprocessing], both delivered with an elapsed
    time of zero seconds; the start time is the time of the call, the
    folder attributes are those of the request, the keep-alive timer runs
    and no final message has been sent.  Run log, files and processes are
    untouched. *)
Theorem open_accepts env msg s :
  channel_open s = true -> peer_leaves env = false ->
  project_data_error env = None -> auth_denied env = None ->
  let s' := snd (MarxanWebSocketHandler_open env msg s) in
  let started := <["status" := "Started"]> msg in
  let preprocessing : Message :=
    <["info" := "Preprocessing.."]> (<["status" := "Preprocessing"]> ∅) in
  fst (MarxanWebSocketHandler_open env msg s) = Ok tt /\
  trace s' = trace s ++
    [EvSendResponse started; EvWrite (enriched s (clock s) started);
     EvSendResponse preprocessing;
     EvWrite (enriched s (clock s) preprocessing)] /\
  self_startTime s' = Some (clock s) /\ self_pc s' = Some true /\
  self_clientSentFinalMsg s' = Some false /\ channel_open s' = true /\
  (forall u, req_user s = Some u -> self_user s' = Some u) /\
  (forall u p, req_user s = Some u -> req_project s = Some p ->
     self_project s' = Some p) /\
  world s' = world s.
Proof.
  intros Hch Hpeer Hdata Hauth.
  destruct s, env as [leaves data auth]; simpl in *; subst.
  unfold MarxanWebSocketHandler_open, _setFolderPaths, enriched, world.
  destruct req_user0 as [u|], req_project0 as [p|], self_project0 as [sp|];
    exec; unfold elapsed; exec;
    rewrite <- !app_assoc; simpl;
    repeat match goal with |- _ /\ _ => split end;
    try reflexivity; try (intros; congruence).
Qed.

(** A clean close with an error message, on an open channel. *)
Lemma close_error_open e s t0 :
  channel_open s = true -> self_startTime s = Some t0 ->
  let m : Message := <["status" := "Finished"]> (<["error" := e]> ∅) in
  close (<["error" := e]> ∅) true s =
  (Ok tt,
   with_channel_open false
     (with_clientSentFinalMsg (Some true)
        (with_trace (trace s ++ [EvSendResponse m; EvWrite (enriched s t0 m);
                                 EvWarning e])
           (with_pc (match self_pc s with
                     | Some true => Some false
                     | o => o
                     end) s)))).
Proof.
  intros Hch Ht. destruct s; simpl in Hch, Ht; subst. cbv zeta.
  unfold close, close_with. cbv zeta.
  rewrite lookup_insert_ne by discriminate. rewrite lookup_insert_eq.
  unfold enriched.
  destruct self_pc0 as [[|]|]; exec; unfold elapsed; exec;
    rewrite <- !app_assoc; reflexivity.
Qed.

(** A clean close of a session whose [open] has returned, on an open or
    a closed channel. *)
Lemma close_clean_session s msg :
  is_Some (self_startTime s) -> is_Some (self_clientSentFinalMsg s) ->
  exists s',
    close msg true s = (Ok tt, s') /\
    responses (trace s') =
      responses (trace s) ++ [<["status" := "Finished"]> msg] /\
    channel_open s' = false /\ outstanding s' = outstanding s /\
    self_pid s' = self_pid s.
Proof.
  intros [t0 Ht] [b Hb]. destruct s; simpl in *; subst.
  destruct channel_open0, self_pc0 as [[|]|], b; exec;
    destruct (_ !! "error"); exec;
    eexists; (split; [reflexivity|]); simpl;
    rewrite ?responses_app; simpl; rewrite ?app_nil_r;
    repeat split; reflexivity.
Qed.

(** Symbolic execution that steps through [send_response] and stops at
    [close]. *)
Ltac exec_send :=
  cbv beta iota zeta delta
    [bind ret raise get modify emit getattr get_argument try_except
     try_except_else try_finally lift step call
     send_response close_with write_message super_close
     with_ledger with_fs with_procs with_outstanding with_channel_open
     with_trace with_startTime with_user with_project with_pid
     with_marxanProcess with_numRunsRequired with_pc with_clientSentFinalMsg
     ledger fs procs clock outstanding channel_open trace req_user
     req_project req_uri self_startTime self_user self_project self_pid
     self_marxanProcess self_numRunsRequired self_pc
     self_clientSentFinalMsg peer_leaves project_data_error auth_denied
     untraced frame_empty negb fst snd].

(** X8. A request that is refused by authentication or authorisation, on
    a channel that stays open: [open] has sent [Started], then closes the
    session with the message of the [HTTPError] under the key [error],
    logs that message and raises [Request denied].  The timer is not
    running, the final flag is set, and run log, files and processes are
    untouched. *)
Theorem open_denies env msg s line :
  channel_open s = true -> peer_leaves env = false ->
  project_data_error env = None -> auth_denied env = Some line ->
  let s' := snd (MarxanWebSocketHandler_open env msg s) in
  let started := <["status" := "Started"]> msg in
  let denied : Message :=
    <["status" := "Finished"]>
      (<["error" := _getExceptionLastLine line]> ∅) in
  fst (MarxanWebSocketHandler_open env msg s) =
    Raise (MarxanServicesError "Request denied") /\
  trace s' = trace s ++
    [EvSendResponse started; EvWrite (enriched s (clock s) started);
     EvSendResponse denied; EvWrite (enriched s (clock s) denied);
     EvWarning (_getExceptionLastLine line)] /\
  channel_open s' = false /\ self_clientSentFinalMsg s' = Some true /\
  self_pc s' <> Some true /\ world s' = world s.
Proof.
  intros Hch Hpeer Hdata Hauth.
  destruct s, env as [leaves data auth]; simpl in *; subst.
  unfold MarxanWebSocketHandler_open, _setFolderPaths, world.
  destruct req_user0 as [u|], req_project0 as [p|], self_project0 as [sp|];
    exec_send;
    match goal with
    | |- context [close ?m true ?S] =>
        rewrite (close_error_open (_getExceptionLastLine line) S clock0
                   eq_refl eq_refl)
    end;
    unfold enriched; exec_send; unfold elapsed; exec_send;
    rewrite <- !app_assoc; cbn [app];
    destruct self_pc0 as [[|]|];
    repeat match goal with |- _ /\ _ => split end;
    try reflexivity; discriminate.
Qed.

(** X9. After [close], however it was called and however it ends, the
    keep-alive timer is not running.  A [close] that returns leaves the
    channel closed and the final flag set, and [close] returns whenever
    [open] had set start time and flag. *)
Theorem close_leaves_session_closed m clean s :
  let s' := snd (close m clean s) in
  self_pc s' <> Some true /\
  (fst (close m clean s) = Ok tt ->
   channel_open s' = false /\ self_clientSentFinalMsg s' = Some true) /\
  (is_Some (self_startTime s) -> is_Some (self_clientSentFinalMsg s) ->
   fst (close m clean s) = Ok tt).
Proof.
  destruct s.
  destruct clean, self_pc0 as [[|]|], self_startTime0 as [t0|],
    channel_open0, self_clientSentFinalMsg0 as [[|]|]; exec;
    try destruct (_ !! "error"); exec;
    (split; [discriminate|]); (split; [intros H; try discriminate H; auto|]);
    intros [? ?] [? ?]; try discriminate; reflexivity.
Qed.

(** ** Streaming the output of Marxan *)

Lemma enriched_with_trace t s t0 m :
  enriched (with_trace t s) t0 m = enriched s t0 m.
Proof. destruct s; reflexivity. Qed.

Lemma stream_loop chunks : forall s t0 mp,
  channel_open s = true -> self_startTime s = Some t0 ->
  self_marxanProcess s = Some mp ->
  exists evs,
    for_each chunks
      (fun line =>
         do mp <- getattr "marxanProcess" self_marxanProcess;
         send_response
           (<["pid" := "m" +:+ py_str mp]>
            (<["status" := "RunningMarxan"]> (<["info" := line]> ∅)))) s =
    (Ok tt, with_trace (trace s ++ evs) s) /\
    frames evs = map (output_frame s t0 mp) chunks.
Proof.
  induction chunks as [|line chunks IH]; intros s t0 mp Hch Ht Hmp.
  - exists []. split; [|reflexivity]. destruct s; simpl.
    rewrite app_nil_r. reflexivity.
  - simpl for_each. unfold bind at 1. unfold bind at 1, getattr at 1.
    rewrite Hmp. rewrite (send_response_open _ s t0 Hch Ht).
    set (m := <["pid" := _]> _).
    destruct (IH (with_trace (trace s ++ [EvSendResponse m;
                                          EvWrite (enriched s t0 m)]) s)
                 t0 mp) as (evs & Hevs & Hfr);
      try (destruct s; simpl in *; assumption).
    exists ([EvSendResponse m; EvWrite (enriched s t0 m)] ++ evs).
    rewrite Hevs. split.
    + destruct s; simpl. rewrite <- app_assoc. reflexivity.
    + rewrite frames_app, Hfr. simpl.
      apply (f_equal (cons (enriched s t0 m))).
      apply map_ext. intros l. unfold output_frame.
      apply enriched_with_trace.
Qed.

(** X10. Where the server does not run on Windows, the output of Marxan
    reaches an open session piece by piece: one [RunningMarxan] frame for
    each piece read from the process, in the order read, tagged with the
    pid of the process; nothing else of the state changes. *)
Theorem output_is_streamed_in_order chunks s t0 mp :
  is_windows cfg = false -> channel_open s = true ->
  self_startTime s = Some t0 -> self_marxanProcess s = Some mp ->
  let s' := snd (stream_marxan_output chunks s) in
  fst (stream_marxan_output chunks s) = Ok tt /\
  frames (trace s') =
    frames (trace s) ++ map (output_frame s t0 mp) chunks /\
  untraced s' = untraced s.
Proof.
  intros Hw Hch Ht Hmp.
  destruct (stream_loop chunks s t0 mp Hch Ht Hmp) as (evs & E & Hfr).
  assert (Hout : stream_marxan_output chunks s =
                 (Ok tt, with_trace (trace s ++ evs) s)).
  { unfold stream_marxan_output. rewrite Hw.
    change (negb false) with true. cbv iota.
    unfold bind at 1. rewrite E. unfold bind, getattr, ret.
    assert (Hmp' : self_marxanProcess (with_trace (trace s ++ evs) s) =
                   Some mp) by (destruct s; exact Hmp).
    rewrite Hmp'. reflexivity. }
  rewrite Hout. simpl.
  split; [reflexivity|]. split.
  - destruct s; simpl. rewrite frames_app, Hfr. reflexivity.
  - destruct s; reflexivity.
Qed.

(** ** Deleting the output files *)

Lemma filter_all {A} (f : A -> bool) (L : list A) :
  (forall x, In x L -> f x = true) -> List.filter f L = L.
Proof.
  induction L as [|x L IH]; intros H; simpl; [reflexivity|].
  rewrite (H x) by (left; reflexivity). f_equal. apply IH. intros y Hy.
  apply H. now right.
Qed.

Lemma filter_twice {A} (f g : A -> bool) (L : list A) :
  List.filter f (List.filter g L) = List.filter (fun x => g x && f x) L.
Proof.
  induction L as [|x L IH]; simpl; [reflexivity|].
  destruct (g x); simpl; [destruct (f x)|]; now rewrite IH.
Qed.

Lemma without_nil l : without [] l = l.
Proof. apply filter_all. reflexivity. Qed.

Lemma without_cons x names l :
  without names (List.filter (fun n => negb (String.eqb n x)) l) =
  without (x :: names) l.
Proof. unfold without. rewrite filter_twice. reflexivity. Qed.

(** The loop of [_deleteAllFiles] over the names [l]. *)
Lemma delete_loop folder l : forall s,
  for_each l
    (fun name =>
       if negb (String.eqb (py_slice_to (-3) (folder +:+ name)) "dat")
       then os_remove folder name
       else ret tt) s =
  (Ok tt,
   with_trace (trace s ++
               map (fun name => EvRemove (folder +:+ name))
                 (List.filter (removable folder) l))
     (with_fs (alter (without (List.filter (removable folder) l)) folder
                 (fs s)) s)).
Proof.
  induction l as [|x l IH]; intros s.
  - simpl. unfold ret. rewrite app_nil_r.
    assert (E : alter (without []) folder (fs s) = fs s)
      by (apply alter_id; intros y _; apply without_nil).
    rewrite E. destruct s; reflexivity.
  - simpl for_each. simpl List.filter. fold (removable folder x).
    destruct (removable folder x).
    + unfold bind at 1, os_remove, bind, emit, modify. rewrite IH.
      f_equal. destruct s; unfold with_trace, with_fs; simpl.
      rewrite <- app_assoc. simpl.
      assert (E : alter (without (List.filter (removable folder) l)) folder
                    (alter (List.filter (fun n => negb (String.eqb n x)))
                       folder fs0) =
                  alter (without (x :: List.filter (removable folder) l))
                    folder fs0).
      { rewrite alter_alter_eq. apply alter_ext.
        intros y _. simpl. apply without_cons. }
      rewrite E. reflexivity.
    + unfold bind at 1, ret. apply IH.
Qed.

Lemma deleteAllFiles_exact folder s :
  let names := List.filter (removable folder) (glob (fs s) folder "") in
  _deleteAllFiles folder s =
  (Ok tt,
   with_trace (trace s ++ map (fun name => EvRemove (folder +:+ name)) names)
     (with_fs (alter (without names) folder (fs s)) s)).
Proof.
  unfold _deleteAllFiles, bind, get. apply delete_loop.
Qed.



(** ** Starting a job, continued *)

(** What a computation of the job handler leaves alone: a view of the
    state that does not depend on the session, the processes, or the
    files of [folder]. *)
Section JobKeeps.

Context {V : Type} (view : Server -> V) (folder : string).
Hypothesis view_trace : forall t s, view (with_trace t s) = view s.
Hypothesis view_procs : forall v s, view (with_procs v s) = view s.
Hypothesis view_marxanProcess :
  forall v s, view (with_marxanProcess v s) = view s.
Hypothesis view_remove :
  forall f s, view (with_fs (alter f folder (fs s)) s) = view s.



End JobKeeps.







Lemma logged_user_send_response m :
  keeps logged_user any_event (send_response m).
Proof. apply keeps_send_response; session_view. Qed.




(** A request that is refused never leaves [open] normally. *)
Lemma open_denied_raises env msg s line :
  auth_denied env = Some line ->
  exists e s1, MarxanWebSocketHandler_open env msg s = (Raise e, s1).
Proof.
  intros Hd.
  assert (H : match MarxanWebSocketHandler_open env msg s with
              | (Ok _, _) => False
              | (Raise _, _) => True
              end).
  { destruct s, env as [leaves [e|] auth]; simpl in Hd; subst auth;
      unfold MarxanWebSocketHandler_open, _setFolderPaths; exec;
      repeat (match goal with
              | |- context [match ?x with _ => _ end] => is_var x; destruct x
              | |- context [match ?m !! "error" with _ => _ end] =>
                  destruct (m !! "error")
              end; exec);
      exact I. }
  destruct (MarxanWebSocketHandler_open env msg s) as [[[]|e] s1];
    [destruct H | eauto].
Qed.

Lemma responses_removes folder names :
  responses (map (fun name => EvRemove (folder +:+ name)) names) = [].
Proof. induction names; simpl; auto. Qed.





(** X14. A start request for a project whose folder does not exist, on
    an accepted session: the handler closes the session with the error
    [Project '<project>' does not exist] and returns; nothing is deleted
    or started, and the run log is as before. *)
Theorem missing_project_is_reported env s u p su sp :
  req_user s = Some u -> req_project s = Some p ->
  self_user s = Some su -> self_project s = Some sp ->
  List.filter (running_for u p) (ledger s) = [] ->
  fs s !! folder_project_for su sp = None ->
  is_Some (self_startTime s) -> is_Some (self_clientSentFinalMsg s) ->
  let s' := snd (startRun env s) in
  fst (startRun env s) = Ok tt /\
  responses (trace s') =
    responses (trace s) ++
    [<["status" := "Finished"]>
       (<["user" := u]>
        (<["project" := p]>
         (<["error" := "Project '" +:+ p +:+ "' does not exist"]> ∅)))] /\
  ledger s' = ledger s /\ fs s' = fs s /\ procs s' = procs s /\
  exists new, trace s' = trace s ++ new /\ Forall quiet new.
Proof.
  intros Hu Hp Hsu Hsp Hfree Hdir Ht Hb.
  assert (E : startRun env s =
              close (<["user" := u]>
                     (<["project" := p]>
                      (<["error" := "Project '" +:+ p +:+ "' does not exist"]>
                         ∅))) true s).
  { destruct s; simpl in *; subst.
    unfold startRun, _isProjectRunning, folder_project. run_monad.
    rewrite Hfree. run_monad.
    rewrite bool_decide_eq_false_2; [reflexivity|].
    rewrite Hdir. intros [? ?]. discriminate. }
  cbv zeta. rewrite E.
  set (m := <["user" := u]> _) in *.
  destruct (close_clean_responses s m Ht Hb) as (H1 & H2 & H3 & H4 & H5).
  destruct (world_close m true s) as (_ & Hnew).
  auto 10.
Qed.

(** X15. A start request that authentication or authorisation refuses
    starts nothing: [open] does not return normally, and the handler
    leaves run log, files, processes and its process attribute as they
    are, removes no file, starts and kills no process. *)
Theorem denied_request_starts_nothing env s line :
  auth_denied (open_env env) = Some line ->
  let s' := snd (runMarxan_open env s) in
  ledger s' = ledger s /\ fs s' = fs s /\ procs s' = procs s /\
  self_marxanProcess s' = self_marxanProcess s /\
  exists new, trace s' = trace s ++ new /\ Forall quiet new.
Proof.
  intros Hd. cbv zeta. unfold runMarxan_open, try_except_else.
  destruct (open_denied_raises (open_env env)
              (<["info" := "Running Marxan.."]> ∅) s line Hd)
    as (e & s1 & E).
  assert (Hk : keeps job_world quiet
                 (MarxanWebSocketHandler_open (open_env env)
                    (<["info" := "Running Marxan.."]> ∅)))
    by (apply keeps_open; session_view).
  destruct (Hk s) as (Hw & Hnew). rewrite E in Hw, Hnew |- *.
  simpl in Hw, Hnew. unfold job_world, world in Hw.
  destruct e; simpl; (split; [congruence|]); (split; [congruence|]);
    (split; [congruence|]); (split; [congruence|]); exact Hnew.
Qed.




(** ** Stopping a job, continued *)





(** ** Queries *)

Lemma world_send_response m : keeps world quiet (send_response m).
Proof. apply keeps_send_response; session_view. Qed.

Lemma world_acquire_failed e :
  match acquire_failed e with
  | Some k => keeps world quiet k
  | None => True
  end.
Proof. destruct e; simpl; keeps_go. Qed.

Lemma world_execute env sql data fmt sh :
  keeps world quiet (execute env sql data fmt sh).
Proof.
  unfold execute. cbv zeta. apply keeps_try_finally.
  - apply keeps_try_except_else.
    + unfold pool_acquire. keeps_go.
    + apply world_acquire_failed.
    + intros c. unfold execute_body, publish_pid, run_query, fetch_records.
      keeps_with ltac:(apply world_send_response).
  - unfold pool_release. keeps_go.
Qed.

Lemma execute_outstanding env sql data fmt sh s :
  outstanding (snd (execute env sql data fmt sh s)) = outstanding s.
Proof.
  unfold execute, try_finally, try_except_else, pool_acquire.
  destruct (db_acquire env) as [c|e] eqn:E; cbv zeta.
  - unfold lift, bind, ret, modify, emit. simpl.
    set (s1 := with_trace _ _).
    destruct (pool_execute_body env sql data fmt sh c s1) as (Hout & _).
    destruct (execute_body env sql data fmt sh c s1) as [r s2].
    simpl in *. unfold pool_release, bind, modify, emit. simpl.
    rewrite Hout. subst s1. destruct s; simpl. lia.
  - unfold lift, bind, raise. simpl.
    pose proof (pool_acquire_failed e) as Hh.
    destruct (acquire_failed e) as [k|].
    + destruct (Hh s) as (Hout & _). destruct (k s) as [r s1]. exact Hout.
    + reflexivity.
Qed.

(** X20. A stop command whose tag is not [m] cancels a query and does
    nothing else: run log, files and processes are as before, no process
    is killed, and the connection pool has as many outstanding
    connections as before. *)
Theorem stop_query_leaves_jobs_alone a db s :
  py_slice_to 1 a <> "m" ->
  let s' := snd (stopProcess_get (Some a) db s) in
  ledger s' = ledger s /\ fs s' = fs s /\ procs s' = procs s /\
  outstanding s' = outstanding s /\
  exists new, trace s' = trace s ++ new /\ Forall quiet new.
Proof.
  intros Hm. apply String.eqb_neq in Hm. cbv zeta.
  assert (E : stopProcess_get (Some a) db s =
    match execute db "SELECT pg_cancel_backend(%s);"
            (Some [py_slice_from 1 a]) None false s with
    | (Ok _, s1) =>
        (Ok (<["info" := "pid '" +:+ py_slice_from 1 a +:+ "' terminated"]> ∅),
         s1)
    | (Raise e, s1) =>
        if is_OSError e then _raiseError "The pid does not exist" s1
        else match e with
             | MarxanServicesError m => _raiseError m s1
             | _ => (Raise e, s1)
             end
    end).
  { unfold stopProcess_get, try_except, try_except_else, bind, ret.
    rewrite Hm.
    destruct (execute _ _ _ _ _ s) as [[r|e] s1]; [reflexivity|].
    destruct e; reflexivity. }
  rewrite E. clear E.
  destruct (world_execute db "SELECT pg_cancel_backend(%s);"
              (Some [py_slice_from 1 a]) None false s) as (Hw & new & Ht & Hq).
  pose proof (execute_outstanding db "SELECT pg_cancel_backend(%s);"
                (Some [py_slice_from 1 a]) None false s) as Ho.
  destruct (execute _ _ _ _ _ s) as [[r|e] s1]; simpl in Hw, Ht, Ho;
    unfold world in Hw.
  - simpl. refine (conj _ (conj _ (conj _ (conj Ho _)))); try congruence.
    eauto.
  - assert (Hwarn : forall msg,
              let s2 := snd (_raiseError msg s1) in
              ledger s2 = ledger s /\ fs s2 = fs s /\ procs s2 = procs s /\
              outstanding s2 = outstanding s /\
              exists new, trace s2 = trace s ++ new /\ Forall quiet new).
    { intros msg. destruct s1; simpl in *.
      refine (conj _ (conj _ (conj _ (conj Ho _)))); try congruence.
      exists (new ++ [EvWarning msg]). rewrite Ht, <- app_assoc.
      split; [reflexivity|]. apply Forall_app. split; [assumption|].
      repeat constructor. }
    destruct e; simpl; try apply Hwarn;
      (refine (conj _ (conj _ (conj _ (conj Ho _)))); try congruence; eauto).
Qed.

(** X21. When [pool.acquire()] raises, whatever it raises, [execute]
    ends with the [UnboundLocalError] of its [finally] clause, which
    releases a connection that was never bound: none of the errors of
    the [except] clauses reaches the caller.  [executeQuery] does not
    handle it either.  The state is as before. *)
Theorem acquire_failure_is_masked env sql data fmt sh s e :
  db_acquire env = Raise e ->
  execute env sql data fmt sh s = (Raise (UnboundLocalError "conn"), s) /\
  executeQuery env sql data fmt s = (Raise (UnboundLocalError "conn"), s).
Proof.
  intros H.
  assert (E : forall sh', execute env sql data fmt sh' s =
                          (Raise (UnboundLocalError "conn"), s)).
  { intros sh'. unfold execute, try_finally, try_except_else, pool_acquire.
    rewrite H. unfold bind, lift, raise.
    destruct e; simpl; try reflexivity.
    destruct (py_in _ _); reflexivity. }
  split; [apply E|]. unfold executeQuery, try_except. rewrite E. reflexivity.
Qed.

(** X22. An error of the query itself, on a connection that was
    acquired: a [UniqueViolation] reaches the caller of [execute] as
    [That item already exists], an [InternalError] as [Query stopped:
    <text>], and every other error as it is, an [IntegrityError]
    included; in each case the connection has been released after the
    query. *)
Theorem query_errors_are_translated env sql fmt s c e :
  db_acquire env = Ok c -> db_cursor env = None -> db_debug env = None ->
  db_execute env = Some e ->
  let out := execute env sql None fmt false s in
  fst out =
    Raise (match e with
           | UniqueViolation _ => MarxanServicesError "That item already exists"
           | InternalError m => MarxanServicesError ("Query stopped: " +:+ m)
           | _ => e
           end) /\
  trace (snd out) = trace s ++ [EvAcquire c; EvExecute sql; EvRelease c] /\
  outstanding (snd out) = outstanding s.
Proof.
  intros Ha Hc Hd He. destruct s. cbv zeta.
  unfold execute, pool_acquire, pool_release, execute_body, run_query.
  rewrite Ha, Hc, Hd, He. run_monad.
  destruct e; run_monad; rewrite <- !app_assoc; simpl;
    (split; [reflexivity|]); (split; [reflexivity|]); lia.
Qed.

(** X23. A query of a session that is cancelled, or stopped by the
    operating system, while it runs: [executeQuery] returns no records,
    the connection is released, and the session is closed with
    [Preprocessing stopped by <user>], or [Preprocessing stopped by
    operating system], after the pid of the query had been sent. *)
Theorem cancelled_query_closes_session env sql fmt s c u e who :
  db_acquire env = Ok c -> db_cursor env = None -> db_debug env = None ->
  db_backend_pid env = None -> db_execute env = Some e ->
  (e = CancelledError /\ who = u) \/
  (exists m, e = OperationalError m /\ who = "operating system") ->
  self_user s = Some u ->
  is_Some (self_startTime s) -> is_Some (self_clientSentFinalMsg s) ->
  let out := executeQuery env sql None fmt s in
  fst out = Ok NoRecords /\
  responses (trace (snd out)) =
    responses (trace s) ++
    [pid_message c;
     <["status" := "Finished"]>
       (<["error" := "Preprocessing stopped by " +:+ who]> ∅)] /\
  outstanding (snd out) = outstanding s /\ channel_open (snd out) = false /\
  self_pid (snd out) = Some ("q" +:+ py_str c).
Proof.
  intros Ha Hc Hd Hb He Hwho Hu [t0 Ht] [b Hf].
  destruct s; simpl in Hu, Ht, Hf; subst. cbv zeta.
  unfold executeQuery, execute, pool_acquire, pool_release, execute_body,
    publish_pid, run_query, pid_message.
  rewrite Ha, Hc, Hd, Hb, He.
  destruct Hwho as [(-> & ->) | (m & -> & ->)];
    destruct channel_open0, self_pc0 as [[|]|], b; exec_send;
    match goal with
    | |- context [close ?msg true ?S] =>
        destruct (close_clean_session S msg) as (s' & -> & Hr & Hch & Ho & Hp);
        [simpl; eauto | simpl; eauto |]
    end;
    destruct s';
    cbn [trace outstanding self_pid channel_open] in Hr, Ho, Hp, Hch;
    subst; rewrite Hr, ?responses_app; cbn [responses omap app];
    rewrite ?app_nil_r, <- ?app_assoc;
    repeat match goal with |- _ /\ _ => split end;
    try reflexivity; try assumption; lia.
Qed.

(** ** Requests *)

(** X24. [_validateArguments] returns when every required argument is
    among the arguments of the request, and otherwise raises the error
    that names the first required argument that is missing.  *)
Theorem validateArguments_names_first_missing arguments pre s :
  Forall (fun a => is_Some (arguments !! a)) pre ->
  _validateArguments arguments pre s = (Ok tt, s) /\
  forall a post, arguments !! a = None ->
    _validateArguments arguments (pre ++ a :: post) s =
    (Raise (MarxanServicesError ("Missing input argument:" +:+ a)), s).
Proof.
  unfold _validateArguments.
  induction 1 as [|x pre [v Hx] Hpre [IH1 IH2]]; simpl.
  - split; [reflexivity|]. intros a post Ha. unfold bind. rewrite Ha.
    reflexivity.
  - split.
    + unfold bind at 1. rewrite Hx. exact IH1.
    + intros a post Ha. unfold bind at 1. rewrite Hx. exact (IH2 a post Ha).
Qed.

Lemma role_may role s :
  In role ["ReadOnly"; "User"; "Admin"] ->
  exists l, py_getitem ROLE_UNAUTHORISED_METHODS role s = (Ok l, s) /\
            List.find (fun kv => String.eqb (fst kv) role)
              ROLE_UNAUTHORISED_METHODS = Some (role, l).
Proof.
  intros [<-|[<-|[<-|[]]]]; eexists; split; reflexivity.
Qed.

(** X25. With security enabled, a request with a [user] argument passes
    the three checks of [open] and [prepare] only if it carries the
    cookie of a user, and only if that user is the one the argument
    names, or the argument names the clumping user, or the user is the
    guest user, or the role cookie says [Admin]. *)
Theorem foreign_project_needs_admin ck path s u :
  DISABLE_SECURITY = false -> req_user s = Some u ->
  fst (authorise ck path s) = Ok tt ->
  exists cu, current_user ck = Some cu /\
    (u = cu \/ u = "_clumping" \/ cu = GUEST_USERNAME \/
     cookie_role ck = Some "Admin").
Proof.
  intros Hsec Hu Hok. destruct s; simpl in Hu; subst.
  unfold authorise, _authenticate, _authoriseRole, _authoriseUser,
    role_cookie, py_getitem in Hok.
  rewrite Hsec in Hok.
  cbv beta iota zeta delta [bind ret raise get req_user fst snd] in Hok.
  destruct (current_user ck) as [cu|]; [|discriminate Hok].
  exists cu. split; [reflexivity|].
  destruct (decide (u = cu)) as [|Hne]; [auto|].
  destruct (String.eqb_spec u "_clumping") as [|Hcl]; [auto|].
  destruct (decide (cu = GUEST_USERNAME)) as [|Hg]; [auto|].
  right; right; right.
  destruct (cookie_role ck) as [role|]; [|discriminate Hok].
  destruct (List.find _ ROLE_UNAUTHORISED_METHODS) as [kv|];
    [|discriminate Hok].
  destruct (bool_decide _); [discriminate Hok|].
  rewrite bool_decide_eq_true_2 in Hok by congruence.
  rewrite (bool_decide_eq_true_2 (Some cu <> Some GUEST_USERNAME)) in Hok
    by congruence.
  apply String.eqb_neq in Hcl. rewrite Hcl in Hok.
  cbv beta iota zeta delta [andb negb] in Hok.
  destruct (String.eqb role "Admin") eqn:Er.
  - apply String.eqb_eq in Er. congruence.
  - discriminate Hok.
Qed.

(** X26. With security enabled the role [Admin] is refused no service,
    and the role [User] is refused no service that the role [ReadOnly]
    may call. *)
Theorem readonly_is_below_user method s ck :
  DISABLE_SECURITY = false ->
  (cookie_role ck = Some "Admin" -> _authoriseRole ck method s = (Ok tt, s)) /\
  (cookie_role ck = Some "User" ->
   forall ck', cookie_role ck' = Some "ReadOnly" ->
     _authoriseRole ck' method s = (Ok tt, s) ->
     _authoriseRole ck method s = (Ok tt, s)).
Proof.
  intros Hsec. unfold _authoriseRole, role_cookie. rewrite Hsec. split.
  - intros ->. reflexivity.
  - intros -> ck' -> Hro.
    destruct (role_may "User" s) as (lu & Eu & Fu); [simpl; auto|].
    destruct (role_may "ReadOnly" s) as (lr & Er & Fr); [simpl; auto|].
    unfold bind, ret in Hro |- *. rewrite Er in Hro. rewrite Eu.
    destruct (bool_decide (method ∈ lu)) eqn:Hu; [|reflexivity].
    apply bool_decide_eq_true in Hu.
    assert (Hsub : forallb (fun m => bool_decide (m ∈ lr)) lu = true).
    { injection Fu as <-. injection Fr as <-. vm_compute. reflexivity. }
    rewrite List.forallb_forall in Hsub.
    assert (Hin : method ∈ lr).
    { eapply bool_decide_eq_true_1, Hsub. now apply list_elem_of_In. }
    rewrite bool_decide_eq_true_2 in Hro by exact Hin. discriminate Hro.
Qed.

(** ** Late messages and failed starts *)

(** X27. Once [open] has set start time and final flag, a message for a
    session whose channel is closed is dropped: [send_response] returns,
    delivers nothing, stops the timer and sets the final flag; that the
    client closed the connection is logged if no final message had been
    sent, and not otherwise. *)
Theorem late_send_is_dropped m s b :
  channel_open s = false -> is_Some (self_startTime s) ->
  self_clientSentFinalMsg s = Some b ->
  let s' := snd (send_response m s) in
  fst (send_response m s) = Ok tt /\
  trace s' = trace s ++
    EvSendResponse m ::
    (if b then []
     else [EvWarning ("The client closed the connection: " +:+ req_uri s)]) /\
  self_clientSentFinalMsg s' = Some true /\ self_pc s' <> Some true /\
  channel_open s' = false.
Proof.
  intros Hch [t0 Ht] Hb. destruct s; simpl in *; subst.
  destruct self_pc0 as [[|]|], b; exec; rewrite <- ?app_assoc;
    repeat match goal with |- _ /\ _ => split end;
    try reflexivity; discriminate.
Qed.

(** X28. A start request on an accepted session for an existing project
    that is not running, when the child process cannot be started: no row
    is written and the process table is as before.  Where the server
    does not run on Windows the handler ends with a [NameError], since
    the name [WindowsError] of its [except] clause does not exist there;
    on Windows an [OSError] with code 1260 closes the session with the
    group policy error, and any other [OSError] is swallowed: the handler
    returns and the session stays as it is, without a message. *)
Theorem failed_spawn_logs_nothing env s u p e :
  req_user s = Some u -> req_project s = Some p ->
  self_user s = Some u -> self_project s = Some p ->
  List.filter (running_for u p) (ledger s) = [] ->
  is_Some (fs s !! folder_project_for u p) ->
  spawn env = Raise e ->
  is_Some (self_startTime s) -> is_Some (self_clientSentFinalMsg s) ->
  let s' := snd (startRun env s) in
  ledger s' = ledger s /\ procs s' = procs s /\
  (is_windows cfg = false ->
   fst (startRun env s) = Raise (NameError "WindowsError")) /\
  (is_windows cfg = true -> e = OtherOSError 1260 ->
   fst (startRun env s) = Ok tt /\
   responses (trace s') =
     responses (trace s) ++
     [<["status" := "Finished"]> (<["error" := blocked_by_policy]> ∅)]) /\
  (is_windows cfg = true -> is_OSError e = true -> winerror_of e <> 1260 ->
   fst (startRun env s) = Ok tt /\
   responses (trace s') = responses (trace s) /\
   channel_open s' = channel_open s).
Proof.
  intros Hu Hp Hsu Hsp Hfree Hdir Hspawn [t0 Ht] [b Hb]. cbv zeta.
  destruct s; simpl in *; subst.
  unfold startRun, _isProjectRunning, folder_project, folder_output.
  run_monad. rewrite Hfree. run_monad.
  rewrite bool_decide_eq_true_2 by assumption. run_monad.
  rewrite deleteAllFiles_exact. run_monad.
  unfold spawnMarxan, Subprocess. run_monad. rewrite Hspawn. run_monad.
  unfold spawn_failed.
  destruct (is_windows cfg).
  - destruct (is_OSError e) eqn:Eos.
    + destruct (winerror_of e =? 1260) eqn:Ew.
      * use_close.
        match goal with s : Server |- _ => destruct s end; simpl in *; subst.
        refine (conj eq_refl (conj eq_refl (conj _ (conj _ _)))).
        -- discriminate.
        -- intros _ _. split; [reflexivity|].
           match goal with H : responses _ = _ |- _ => rewrite H end.
           rewrite responses_app, responses_removes, app_nil_r.
           reflexivity.
        -- intros _ _ Hne. apply Z.eqb_eq in Ew. contradiction.
      * run_monad.
        refine (conj eq_refl (conj eq_refl (conj _ (conj _ _)))).
        -- discriminate.
        -- intros _ ->. discriminate Ew.
        -- intros _ _ _. split; [reflexivity|]. split; [|reflexivity].
           rewrite responses_app, responses_removes, app_nil_r.
           reflexivity.
    + run_monad.
      refine (conj eq_refl (conj eq_refl (conj _ (conj _ _)))).
      * discriminate.
      * intros _ ->. discriminate Eos.
      * intros _ Hos. discriminate Hos.
  - run_monad.
    refine (conj eq_refl (conj eq_refl (conj _ (conj _ _))));
      [reflexivity | discriminate | discriminate].
Qed.

End Server.

(** * The sample installation at work *)

(** C9, the failing input: the peer leaves while [open] awaits the project
    data; the next [send_response] of [open] raises instead of returning. *)
Lemma open_raises_when_peer_leaves :
  fst (MarxanWebSocketHandler_open (mkOpenEnv true None None)
         (<["info" := "Running Marxan.."]> ∅) (fresh0 [] [])) =
  Raise (AttributeError "clientSentFinalMsg").
Proof. vm_compute. reflexivity. Qed.

Lemma send_response_before_flag_raises_witness :
  let s := server0 [] [] ∅ false None in
  channel_open s = false /\ self_startTime s = Some 40 /\
  self_clientSentFinalMsg s = None /\
  fst (send_response (<["status" := "Preprocessing"]> ∅) s) =
  Raise (AttributeError "clientSentFinalMsg").
Proof.
  refine (conj eq_refl (conj eq_refl (conj eq_refl _))).
  apply (send_response_before_flag_raises (server0 [] [] ∅ false None) 40);
    reflexivity.
Defined.

(** A clean close, then a second close and a late send. *)
Lemma close_is_idempotent_witness :
  let s := server0 [] [] ∅ true (Some false) in
  let msg : Message := <["info" := "Run completed"]> ∅ in
  let cs := [Close msg true; Send (<["status" := "WebSocketOpen"]> ∅)] in
  let s1 := snd (close msg true s) in
  let s2 := snd (calls cs s1) in
  self_startTime s = Some 40 /\ channel_open s = true /\
  frames (trace s1) =
    frames (trace s) ++ [enriched s 40 (<["status" := "Finished"]> msg)] /\
  fst (calls cs s1) = true /\
  frames (trace s2) = frames (trace s1) /\
  untraced s2 = untraced s1 /\
  length (List.filter is_finished (frames (trace s2))) =
    S (length (List.filter is_finished (frames (trace s)))).
Proof.
  refine (conj eq_refl (conj eq_refl _)).
  apply (close_is_idempotent (server0 [] [] ∅ true (Some false)) 40);
    reflexivity.
Defined.




(** The run log was cleared while the job was running. *)
Lemma missing_row_is_reported_witness :
  let s := server0 [] ["output_r00001.csv"] ∅ true (Some false) in
  let s' := snd (finishOutput cfg0 s) in
  fst (finishOutput cfg0 s) = Ok tt /\
  ledger s' = ledger s /\
  responses (trace s') =
    responses (trace s) ++
    [<["status" := "Finished"]>
       (<["error" :=
            "Unable to update run log for pid 1234 with status Killed"]> ∅)].
Proof.
  destruct (missing_row_is_reported cfg0) as (_ & H).
  apply (H (server0 [] ["output_r00001.csv"] ∅ true (Some false))
           1234 "andrew" "Tonga" 3 40).
  - unfold job_session. simpl. repeat split; eauto.
  - discriminate.
  - reflexivity.
Defined.

(** C10, the claim as stated fails: the stop command's update recounts
    the completed runs of the row it stops. *)
Lemma stop_update_changes_runs :
  let s := server0 [row0 "0/3" Running] ["output_r00001.csv"] ∅ true
             (Some false) in
  let s' := snd (_updateRunLog cfg0 1234 None None None Stopped s) in
  runs <$> ledger s = ["0/3"] /\ runs <$> ledger s' = ["1/3"] /\
  runs <$> ledger s' <> runs <$> ledger s.
Proof. vm_compute. repeat split; discriminate. Qed.

Lemma update_changes_only_status_and_recount_witness :
  let s := server0 [row0 "0/3" Running] ["output_r00001.csv"] ∅ true
             (Some false) in
  let s' := snd (_updateRunLog cfg0 1234 None None None Stopped s) in
  ledger s !! 0%nat = Some (row0 "0/3" Running) /\
  exists r', ledger s' !! 0%nat = Some r' /\
    pid r' = 1234 /\ user r' = "andrew" /\ project r' = "Tonga" /\
    starttime r' = "01/02/21 10:00:00".
Proof.
  split; [reflexivity|].
  destruct (update_changes_only_status_and_recount cfg0 1234 None None None
              Stopped
              (server0 [row0 "0/3" Running] ["output_r00001.csv"] ∅ true
                 (Some false))) as (_ & H).
  destruct (H 0%nat (row0 "0/3" Running) eq_refl)
    as (r' & Hr' & Hp & Hu & Hpr & Hst & _).
  exists r'. auto.
Defined.




(** Two start attempts for the same project: the first is logged, the
    second is refused, and the run log has one [Running] row. *)
Example second_start_is_refused :
  let s1 := snd (runMarxan_open cfg0 (starts 1234) (fresh0 [] [])) in
  let s2 := snd (runMarxan_open cfg0 (starts 4321) (new_request s1)) in
  status <$> ledger s1 = [Running] /\ ledger s2 = ledger s1 /\
  procs s2 = procs s1 /\
  responses (trace s2) =
    [<["status" := "Started"]> (<["info" := "Running Marxan.."]> ∅);
     <["info" := "Preprocessing.."]> (<["status" := "Preprocessing"]> ∅);
     <["status" := "Finished"]>
       (<["info" := ""]> (<["error" := already_running cfg0]> ∅))].
Proof.
  intros; repeat match goal with |- _ /\ _ => split end;
    vm_compute; reflexivity.
Qed.

(** A job of three runs is stopped by its user after the first run: the
    row ends [Stopped] with [1/3], and the session is told so. *)
Example stopped_job_ends_stopped :
  let s1 := snd (runMarxan_open cfg0 (starts 1234) (fresh0 [] [])) in
  let s2 := marxan_writes ["output_r00001.csv"] s1 in
  let s3 := snd (stopProcess_get cfg0 (Some "m1234") quiet_db s2) in
  let s4 := snd (process_exit cfg0 1234 s3) in
  (fun r => (status r, runs r)) <$> ledger s4 = [(Stopped, "1/3")] /\
  last (responses (trace s4)) =
    Some (<["status" := "Finished"]>
            (run_stopped "andrew" "andrew" "Tonga")).
Proof.
  intros; repeat match goal with |- _ /\ _ => split end;
    vm_compute; reflexivity.
Qed.

(** A job of three runs that writes its three output files and exits. *)
Example completed_job_ends_completed :
  let s1 := snd (runMarxan_open cfg0 (starts 1234) (fresh0 [] [])) in
  let s2 := marxan_writes
              ["output_r00001.csv"; "output_r00002.csv"; "output_r00003.csv"]
              s1 in
  let s3 := snd (process_exit cfg0 1234 s2) in
  (fun r => (status r, runs r)) <$> ledger s3 = [(Completed, "3/3")] /\
  last (responses (trace s3)) =
    Some (<["status" := "Finished"]> (run_completed "andrew" "Tonga")).
Proof.
  intros; repeat match goal with |- _ /\ _ => split end;
    vm_compute; reflexivity.
Qed.

(** A job whose process dies without a stop command. *)
Example killed_job_ends_killed :
  let s1 := snd (runMarxan_open cfg0 (starts 1234) (fresh0 [] [])) in
  let s2 := marxan_writes ["output_r00001.csv"] s1 in
  let s3 := snd (process_exit cfg0 1234 s2) in
  (fun r => (status r, runs r)) <$> ledger s3 = [(Killed, "1/3")] /\
  last (responses (trace s3)) =
    Some (<["status" := "Finished"]>
            (run_stopped "operating system" "andrew" "Tonga")).
Proof.
  intros; repeat match goal with |- _ /\ _ => split end;
    vm_compute; reflexivity.
Qed.

(** A query through [executeQuery]: the trace of the call. *)
Example query_is_published_then_run :
  trace (snd (executeQuery quiet_db "SELECT 1;" None (Some Array)
                query_session)) =
  [EvAcquire 77; EvBackendPid 77; EvSendResponse (pid_message 77);
   EvWrite (<["pid" := "q77"]>
            (<["user" := "andrew"]>
             (<["elapsedtime" := "60s"]> (pid_message 77))));
   EvExecute "SELECT 1;"; EvFetchAll; EvRelease 77].
Proof. vm_compute. reflexivity. Qed.

(** * The further properties at work *)

Lemma getExceptionLastLine_strips_class_witness :
  _getExceptionLastLine
    ("tornado.web.HTTPError" +:+ ": " +:+ "HTTP 403: Forbidden") =
  "HTTP 403: Forbidden".
Proof.
  apply (proj1 getExceptionLastLine_strips_class). reflexivity.
Defined.

Lemma getRESTMethod_is_last_segment_witness :
  _getRESTMethod ("/marxan-server" +:+ "/" +:+ "runMarxan") = "runMarxan".
Proof.
  apply (proj1 getRESTMethod_is_last_segment). reflexivity.
Defined.





Lemma open_accepts_witness :
  let s := fresh0 [] [] in
  let out := MarxanWebSocketHandler_open (mkOpenEnv false None None)
               (<["info" := "Running Marxan.."]> ∅) s in
  fst out = Ok tt /\ self_startTime (snd out) = Some 100 /\
  self_pc (snd out) = Some true.
Proof.
  intros s out.
  destruct (open_accepts (mkOpenEnv false None None)
              (<["info" := "Running Marxan.."]> ∅) s
              eq_refl eq_refl eq_refl eq_refl)
    as (H1 & _ & H3 & H4 & _).
  exact (conj H1 (conj H3 H4)).
Defined.

Lemma open_denies_witness :
  let s := fresh0 [] [] in
  let out := MarxanWebSocketHandler_open (open_env refused)
               (<["info" := "Running Marxan.."]> ∅) s in
  fst out = Raise (MarxanServicesError "Request denied") /\
  channel_open (snd out) = false.
Proof.
  intros s out.
  destruct (open_denies (open_env refused)
              (<["info" := "Running Marxan.."]> ∅) s
              "tornado.web.HTTPError: HTTP 403: Forbidden"
              eq_refl eq_refl eq_refl eq_refl)
    as (H1 & _ & H3 & _).
  exact (conj H1 H3).
Defined.

Lemma close_leaves_session_closed_witness :
  let s := server0 [] [] ∅ true (Some false) in
  let out := close (<["info" := "Run completed"]> ∅) true s in
  fst out = Ok tt /\ channel_open (snd out) = false /\
  self_pc (snd out) <> Some true.
Proof.
  intros s out.
  destruct (close_leaves_session_closed (<["info" := "Run completed"]> ∅)
              true s) as (H1 & H2 & H3).
  assert (Hok : fst out = Ok tt) by (apply H3; simpl; eauto).
  destruct (H2 Hok) as (Hch & _).
  exact (conj Hok (conj Hch H1)).
Defined.

Lemma output_is_streamed_in_order_witness :
  let s := server0 [] [] ∅ true (Some false) in
  let s' := snd (stream_marxan_output cfg0 ["Run 1"; "Run 2"] s) in
  frames (trace s') =
    [output_frame s 40 1234 "Run 1"; output_frame s 40 1234 "Run 2"].
Proof.
  intros s s'.
  destruct (output_is_streamed_in_order cfg0 ["Run 1"; "Run 2"] s 40 1234
              eq_refl eq_refl eq_refl eq_refl) as (_ & H & _).
  exact H.
Defined.




Lemma missing_project_is_reported_witness :
  let s' := snd (startRun cfg0 (starts 4321) fiji_session) in
  fst (startRun cfg0 (starts 4321) fiji_session) = Ok tt /\
  responses (trace s') =
    [<["status" := "Finished"]>
       (<["user" := "andrew"]>
        (<["project" := "Fiji"]>
         (<["error" := "Project 'Fiji' does not exist"]> ∅)))] /\
  procs s' = ∅.
Proof.
  intros s'.
  destruct (missing_project_is_reported cfg0 (starts 4321) fiji_session
              "andrew" "Fiji" "andrew" "Fiji")
    as (H1 & H2 & _ & _ & H5 & _); try reflexivity.
  - simpl. eauto.
  - simpl. eauto.
  - exact (conj H1 (conj H2 H5)).
Defined.

Lemma denied_request_starts_nothing_witness :
  let s := fresh0 [] ["output_r00001.csv"] in
  let s' := snd (runMarxan_open cfg0 refused s) in
  ledger s' = ledger s /\ fs s' = fs s /\ procs s' = procs s.
Proof.
  intros s s'.
  destruct (denied_request_starts_nothing cfg0 refused s
              "tornado.web.HTTPError: HTTP 403: Forbidden" eq_refl)
    as (H1 & H2 & H3 & _).
  exact (conj H1 (conj H2 H3)).
Defined.





Lemma stop_query_leaves_jobs_alone_witness :
  let s := server0 [row0 "0/3" Running] [] {[1234 := true]} true
             (Some false) in
  let s' := snd (stopProcess_get cfg0 (Some "q77") quiet_db s) in
  ledger s' = ledger s /\ procs s' = procs s /\
  outstanding s' = outstanding s.
Proof.
  intros s s'.
  destruct (stop_query_leaves_jobs_alone cfg0 "q77" quiet_db s)
    as (H1 & _ & H3 & H4 & _).
  - vm_compute. discriminate.
  - exact (conj H1 (conj H3 H4)).
Defined.

Lemma acquire_failure_is_masked_witness :
  execute closed_db "SELECT 1;" None (Some Array) true query_session =
  (Raise (UnboundLocalError "conn"), query_session).
Proof.
  apply (acquire_failure_is_masked closed_db "SELECT 1;" None (Some Array)
           true query_session (OperationalError "connection refused")).
  reflexivity.
Defined.

Lemma query_errors_are_translated_witness :
  let out := execute (failing_db (UniqueViolation "duplicate key"))
               "SELECT 1;" None None false query_session in
  fst out = Raise (MarxanServicesError "That item already exists") /\
  outstanding (snd out) = 0.
Proof.
  intros out.
  destruct (query_errors_are_translated
              (failing_db (UniqueViolation "duplicate key")) "SELECT 1;"
              None query_session 77 (UniqueViolation "duplicate key")
              eq_refl eq_refl eq_refl eq_refl) as (H1 & _ & H3).
  exact (conj H1 H3).
Defined.

Lemma cancelled_query_closes_session_witness :
  let out := executeQuery (failing_db CancelledError) "SELECT 1;" None None
               query_session in
  fst out = Ok NoRecords /\
  responses (trace (snd out)) =
    [pid_message 77;
     <["status" := "Finished"]>
       (<["error" := "Preprocessing stopped by andrew"]> ∅)] /\
  outstanding (snd out) = 0.
Proof.
  intros out.
  destruct (cancelled_query_closes_session (failing_db CancelledError)
              "SELECT 1;" None query_session 77 "andrew" CancelledError
              "andrew" eq_refl eq_refl eq_refl eq_refl eq_refl)
    as (H1 & H2 & H3 & _).
  - left. split; reflexivity.
  - reflexivity.
  - simpl. eauto.
  - simpl. eauto.
  - exact (conj H1 (conj H2 H3)).
Defined.

Lemma validateArguments_names_first_missing_witness :
  _validateArguments {["user" := ["andrew"]]} ["user"; "project"]
    query_session =
  (Raise (MarxanServicesError "Missing input argument:project"),
   query_session).
Proof.
  apply (proj2 (validateArguments_names_first_missing
                  {["user" := ["andrew"]]} ["user"] query_session
                  ltac:(repeat constructor; vm_compute; eauto))
           "project" []).
  vm_compute. reflexivity.
Defined.

Lemma foreign_project_needs_admin_witness :
  exists cu, current_user (mkCookies (Some "admin") (Some "Admin")) = Some cu /\
    ("andrew" = cu \/ "andrew" = "_clumping" \/ cu = GUEST_USERNAME \/
     cookie_role (mkCookies (Some "admin") (Some "Admin")) = Some "Admin").
Proof.
  apply (foreign_project_needs_admin false
           (mkCookies (Some "admin") (Some "Admin"))
           "/marxan-server/runMarxan" (fresh0 [] []) "andrew").
  - reflexivity.
  - reflexivity.
  - vm_compute. reflexivity.
Defined.

Lemma readonly_is_below_user_witness :
  _authoriseRole false (mkCookies (Some "admin") (Some "Admin")) "shutdown"
    query_session = (Ok tt, query_session).
Proof.
  apply (proj1 (readonly_is_below_user false "shutdown" query_session
                  (mkCookies (Some "admin") (Some "Admin")) eq_refl)).
  reflexivity.
Defined.

Lemma late_send_is_dropped_witness :
  let s := server0 [] [] ∅ false (Some false) in
  let out := send_response (<["status" := "WebSocketOpen"]> ∅) s in
  fst out = Ok tt /\
  trace (snd out) =
    [EvSendResponse (<["status" := "WebSocketOpen"]> ∅);
     EvWarning ("The client closed the connection: " +:+ req_uri s)] /\
  self_clientSentFinalMsg (snd out) = Some true.
Proof.
  intros s out.
  destruct (late_send_is_dropped (<["status" := "WebSocketOpen"]> ∅) s false)
    as (H1 & H2 & H3 & _).
  - reflexivity.
  - simpl. eauto.
  - reflexivity.
  - exact (conj H1 (conj H2 H3)).
Defined.

(** Marxan cannot be started on the sample installation, which is not on
    Windows. *)
Lemma failed_spawn_logs_nothing_witness :
  let s := server0 [] [] ∅ true (Some false) in
  let env := mkRunEnv (mkOpenEnv false None None) (Raise (OtherOSError 0))
               None (Ok 3) in
  fst (startRun cfg0 env s) = Raise (NameError "WindowsError") /\
  ledger (snd (startRun cfg0 env s)) = [].
Proof.
  intros s env.
  destruct (failed_spawn_logs_nothing cfg0 env s "andrew" "Tonga"
              (OtherOSError 0)) as (H1 & _ & H3 & _); try reflexivity.
  - vm_compute. eauto.
  - simpl. eauto.
  - simpl. eauto.
  - split; [apply H3; reflexivity | exact H1].
Defined.
